(** * Snapshot comparison and aggregation of flight prices

    A shallow embedding of [FlightPriceComparator] from
    [price_comparison_analysis.py]: the snapshot join of
    [compare_snapshots], the bucket classification done with [pd.cut], and
    the per-agent and per-route roll-ups of [analyze_ota_changes] and
    [analyze_route_changes].

    Numbers.  The columns are binary64 in the program.  Here a finite value
    is an exact rational and the three special values of IEEE 754 are kept
    ([+inf], [-inf], [NaN]); the rounding error of single operations and the
    sign of zero are not modelled.  Division by zero therefore behaves as in
    numpy: it yields an infinity or [NaN] and never raises.

    Frames.  A frame is the list of its rows.  A cell of a key column
    holds a string or is missing, as [read_csv] leaves it when the text is
    one of its markers of a missing value; the price column holds numbers.

    Kernels.  Two numpy kernels are taken with their contract only, as the
    fields of the class [Numpy]: the square root behind [std], and the
    sort behind [sort_values], which pandas runs with [kind='quicksort']
    and which is not stable.  Two instances are given for the examples:
    the insertion sort of the scalar kernel and the four-lane network of
    the vectorised one.  The plotting calls and the file writes of the
    report are taken as outcomes that return or raise. *)

From Stdlib Require Import List String Ascii Bool Arith ZArith.
From Stdlib Require Import QArith Qabs Qround.
From Stdlib Require Import Lia Lqa Permutation Sorted Mergesort Orders.
Import ListNotations.

Open Scope string_scope.
Open Scope list_scope.
Open Scope Q_scope.

(** ** Floating-point values *)

Inductive float : Type :=
| Fin (q : Q)
| PInf
| NInf
| NaN.

Declare Scope float_scope.
Delimit Scope float_scope with float.
Bind Scope float_scope with float.

Module fl.

Definition isnan (x : float) : bool :=
  match x with NaN => true | _ => false end.

Definition notna (x : float) : bool := negb (isnan x).

Definition Qltb (a b : Q) : bool :=
  match a ?= b with Lt => true | _ => false end.

(** [x < y]; false as soon as one side is [NaN]. *)
Definition ltb (x y : float) : bool :=
  match x, y with
  | NaN, _ | _, NaN => false
  | _, NInf => false
  | NInf, _ => true
  | PInf, _ => false
  | Fin _, PInf => true
  | Fin a, Fin b => Qltb a b
  end.

(** [x <= y]; false as soon as one side is [NaN]. *)
Definition leb (x y : float) : bool :=
  match x, y with
  | NaN, _ | _, NaN => false
  | NInf, _ => true
  | _, NInf => false
  | _, PInf => true
  | PInf, Fin _ => false
  | Fin a, Fin b => Qle_bool a b
  end.

Definition gtb (x y : float) : bool := ltb y x.

Definition neg (x : float) : float :=
  match x with
  | Fin q => Fin (- q)
  | PInf => NInf
  | NInf => PInf
  | NaN => NaN
  end.

Definition abs (x : float) : float :=
  match x with
  | Fin q => Fin (Qabs q)
  | PInf | NInf => PInf
  | NaN => NaN
  end.

Definition add (x y : float) : float :=
  match x, y with
  | NaN, _ | _, NaN => NaN
  | PInf, NInf | NInf, PInf => NaN
  | PInf, _ | _, PInf => PInf
  | NInf, _ | _, NInf => NInf
  | Fin a, Fin b => Fin (a + b)
  end.

(** The infinity of the sign of [q], [NaN] for zero. *)
Definition signed_inf (q : Q) : float :=
  match q ?= 0 with
  | Gt => PInf
  | Lt => NInf
  | Eq => NaN
  end.

Definition mul (x y : float) : float :=
  match x, y with
  | NaN, _ | _, NaN => NaN
  | Fin a, Fin b => Fin (a * b)
  | PInf, Fin b | Fin b, PInf => signed_inf b
  | NInf, Fin b | Fin b, NInf => signed_inf (- b)
  | PInf, PInf | NInf, NInf => PInf
  | PInf, NInf | NInf, PInf => NInf
  end.

(** True division.  A finite value over zero is an infinity of the sign
    of the numerator, zero over zero is [NaN]. *)
Definition div (x y : float) : float :=
  match x, y with
  | NaN, _ | _, NaN => NaN
  | Fin a, Fin b =>
      match b ?= 0 with
      | Eq => signed_inf a
      | _ => Fin (a / b)
      end
  | Fin _, (PInf | NInf) => Fin 0
  | PInf, Fin b => match b ?= 0 with Lt => NInf | _ => PInf end
  | NInf, Fin b => match b ?= 0 with Lt => PInf | _ => NInf end
  | (PInf | NInf), (PInf | NInf) => NaN
  end.

(** Round half to even, the rounding of [np.rint]. *)
Definition rint (q : Q) : Z :=
  let f := Qfloor q in
  match Qcompare (q - inject_Z f) (1 # 2) with
  | Lt => f
  | Gt => (f + 1)%Z
  | Eq => if Z.even f then f else (f + 1)%Z
  end.

(** [np.round(x, 2)]: scale by 100, round half to even, scale back. *)
Definition round2 (x : float) : float :=
  match x with
  | Fin q => Fin (rint (q * 100) # 100)
  | _ => x
  end.

End fl.

Notation "x <? y" := (fl.ltb x y) : float_scope.
Notation "x <=? y" := (fl.leb x y) : float_scope.
Notation "x >? y" := (fl.gtb x y) : float_scope.

(** ** The pandas operations the program calls *)

Module pd.

(** The texts [read_csv] reads as a missing value by default. *)
Definition na_values : list string :=
  ["-1.#IND"; "1.#QNAN"; "1.#IND"; "-1.#QNAN"; "#N/A N/A"; "#N/A"; "N/A";
   "n/a"; "NA"; "<NA>"; "#NA"; "NULL"; "null"; "NaN"; "-NaN"; "nan"; "-nan";
   "None"; ""].

(** A cell of a text column as [read_csv] returns it: missing ([NaN]) for
    a marker of a missing value, the text otherwise. *)
Definition read_cell (text : string) : option string :=
  if existsb (String.eqb text) na_values then None else Some text.

(** Equality of two key cells in a merge: two missing cells match. *)
Definition cell_eqb (a b : option string) : bool :=
  match a, b with
  | Some x, Some y => x =? y
  | None, None => true
  | _, _ => false
  end.

(** The cell holds the text [k]; a missing cell holds none. *)
Definition cell_is (c : option string) (k : string) : bool :=
  match c with
  | Some x => x =? k
  | None => false
  end.

Definition notna (c : option string) : bool :=
  match c with
  | Some _ => true
  | None => false
  end.

(** The cells that are not missing. *)
Definition dropna (col : list (option string)) : list string :=
  flat_map (fun c => match c with Some x => [x] | None => [] end) col.

(** [a + sep + b] on two text cells: missing as soon as one is. *)
Definition str_cat (a : option string) (sep : string) (b : option string)
  : option string :=
  match a, b with
  | Some x, Some y => Some (x ++ sep ++ y)%string
  | _, _ => None
  end.

(** The order numpy sorts and searches with: [NaN] is larger than any
    other value. *)
Definition np_lt (a b : float) : bool :=
  fl.ltb a b || (fl.isnan b && fl.notna a).

(** [bins.searchsorted(x, side="left")]: the first position whose bin
    edge is not below [x]. *)
Fixpoint searchsorted_left (bins : list float) (x : float) : nat :=
  match bins with
  | [] => O
  | b :: bins' => if np_lt b x then S (searchsorted_left bins' x) else O
  end.

(** [pd.cut(x, bins, labels=labels)] on one value, with the defaults
    [right=True] and [include_lowest=False]: the value falls in the
    interval [(bins[i-1], bins[i]]] found by the search; a missing value
    and a value outside every interval have no category. *)
Definition cut (bins : list float) (labels : list string) (x : float)
  : option string :=
  let ids := searchsorted_left bins x in
  if fl.isnan x || (ids =? List.length bins)%nat || (ids =? 0)%nat
  then None
  else nth_error labels (ids - 1).

(** [pd.merge(left, right, on=..., how='inner')]: every pair of a left and
    a right row with equal keys gives one row; the rows follow the order
    of the left frame and, for one left row, the order of the right
    frame. *)
Definition merge {L R K O : Type} (eqb : K -> K -> bool)
    (kl : L -> K) (kr : R -> K) (mk : L -> R -> O)
    (left : list L) (right : list R) : list O :=
  flat_map
    (fun l => map (mk l) (filter (fun r => eqb (kl l) (kr r)) right))
    left.

End pd.

(** ** Data model *)

(** The four columns two snapshots are matched on
    ([merge_cols] in [compare_snapshots]). *)
Record FlightKey : Type := Key {
  origin : option string;
  destination : option string;
  depart_date : option string;
  gate : option string
}.

(** The key of a CSV row, from the texts of its four cells. *)
Definition mkKey (origin destination depart_date gate : string)
  : FlightKey :=
  Key (pd.read_cell origin) (pd.read_cell destination)
    (pd.read_cell depart_date) (pd.read_cell gate).

(** A row of a snapshot file, restricted to the columns the comparison
    selects, [merge_cols + ['price_eur']].  A price is a decimal number. *)
Record Observation : Type := mkObs {
  obs_key : FlightKey;
  price_eur : Q
}.

(** A row of the frame returned by [compare_snapshots]. *)
Record Delta : Type := mkDelta {
  key : FlightKey;
  price_eur_new : Q;
  price_eur_old : Q;
  price_diff : Q;
  change_pct : float;
  route : option string;
  change_type : option string
}.

Definition key_eqb (a b : FlightKey) : bool :=
  pd.cell_eqb (origin a) (origin b)
  && pd.cell_eqb (destination a) (destination b)
  && pd.cell_eqb (depart_date a) (depart_date b)
  && pd.cell_eqb (gate a) (gate b).

(** ** Exceptions *)

Inductive exn : Type :=
| FileNotFoundError (snapshot : string).

Definition result (A : Type) : Type := (exn + A)%type.

Definition ret {A} (a : A) : result A := inr a.
Definition raise {A} (e : exn) : result A := inl e.
Definition bind {A B} (m : result A) (k : A -> result B) : result B :=
  match m with
  | inl e => inl e
  | inr a => k a
  end.

Notation "x <- m ;; k" := (bind m (fun x => k))
  (at level 61, m at next level, right associativity).

(** ** [compare_snapshots] *)

(** The snapshot directory: the rows of [<date>/all_routes.csv] for each
    date that has a snapshot. *)
Definition Snapshots : Type := string -> option (list Observation).

(** [load_snapshot] raises when the file is absent.  The column
    [snapshot_date] it adds is dropped by the column selection of the
    merge and is left out. *)
Definition load_snapshot (snapshots_dir : Snapshots) (date_str : string)
  : result (list Observation) :=
  match snapshots_dir date_str with
  | None => raise (FileNotFoundError date_str)
  | Some df => ret df
  end.

Definition bins : list float :=
  [NInf; Fin (-5); Fin (-1); Fin 1; Fin 5; PInf].

Definition labels : list string :=
  ["Major Drop (>5%)"; "Minor Drop (1-5%)"; "Stable (±1%)";
   "Minor Increase (1-5%)"; "Major Increase (>5%)"].

(** The row built from a matched pair: the price columns of the merge,
    then the columns [compare_snapshots] adds. *)
Definition delta_row (new old : Observation) : Delta :=
  let diff := price_eur new - price_eur old in
  let pct := fl.mul (fl.div (Fin diff) (Fin (price_eur old))) (Fin 100) in
  {| key := obs_key new;
     price_eur_new := price_eur new;
     price_eur_old := price_eur old;
     price_diff := diff;
     change_pct := pct;
     route :=
       pd.str_cat (origin (obs_key new)) " → " (destination (obs_key new));
     change_type := pd.cut bins labels pct |}.

(** The body of [compare_snapshots] once both frames are loaded; [df2],
    the later snapshot, is the left frame of the merge. *)
Definition compare_frames (df1 df2 : list Observation) : list Delta :=
  pd.merge key_eqb obs_key obs_key delta_row df2 df1.

Definition compare_snapshots (snapshots_dir : Snapshots)
    (date1 date2 : string) : result (list Delta) :=
  df1 <- load_snapshot snapshots_dir date1 ;;
  df2 <- load_snapshot snapshots_dir date2 ;;
  ret (compare_frames df1 df2).

(** ** Aggregation *)

(** The numpy kernels whose results the program does not pin down: the
    square root, which rounds, and the default [kind='quicksort'] of
    [argsort], which sorts but is not stable.  The model takes them with
    their contract only. *)
Class Numpy : Type := {
  np_sqrt : Q -> Q;
  np_argsort : list float -> list nat;
  np_argsort_perm :
    forall a, Permutation (np_argsort a) (seq 0 (List.length a));
  np_argsort_sorted :
    forall a,
      forallb fl.notna a = true ->
      StronglySorted
        (fun i j => fl.leb (nth i a NaN) (nth j a NaN) = true)
        (np_argsort a)
}.

Module StringOrder <: TotalLeBool.
Definition t : Type := string.
Definition leb : t -> t -> bool := String.leb.
Lemma leb_total : forall a b, leb a b = true \/ leb b a = true.
Proof. exact String.leb_total. Qed.
End StringOrder.

Module StringSort := Sort StringOrder.

Module agg.

(** Aggregations skip missing values, as pandas does by default. *)
Definition valid (col : list float) : list float := filter fl.notna col.

Definition count (col : list float) : nat := List.length (valid col).

Definition sum (col : list float) : float :=
  fold_left fl.add (valid col) (Fin 0).

Definition of_nat (n : nat) : float := Fin (inject_Z (Z.of_nat n)).

Definition mean (col : list float) : float :=
  match count col with
  | O => NaN
  | n => fl.div (sum col) (of_nat n)
  end.

Definition sqrt `{np : Numpy} (x : float) : float :=
  match x with
  | Fin q => if fl.Qltb q 0 then NaN else Fin (np_sqrt q)
  | PInf => PInf
  | NInf | NaN => NaN
  end.

(** Sample variance, [ddof=1]: missing when fewer than two values. *)
Definition var (col : list float) : float :=
  let n := count col in
  if (n <=? 1)%nat then NaN
  else
    let m := mean col in
    let sq x := let d := fl.add x (fl.neg m) in fl.mul d d in
    fl.div (fold_left fl.add (map sq (valid col)) (Fin 0)) (of_nat (n - 1)).

Definition std `{np : Numpy} (col : list float) : float := sqrt (var col).

Definition fmin (x y : float) : float := if fl.ltb y x then y else x.
Definition fmax (x y : float) : float := if fl.ltb x y then y else x.

Definition min (col : list float) : float :=
  match valid col with
  | [] => NaN
  | x :: xs => fold_left fmin xs x
  end.

Definition max (col : list float) : float :=
  match valid col with
  | [] => NaN
  | x :: xs => fold_left fmax xs x
  end.

(** [nunique] counts the distinct values that are not missing. *)
Definition nunique (col : list (option string)) : nat :=
  List.length (nodup string_dec (pd.dropna col)).

End agg.

(** [df.groupby(by)]: the groups in ascending order of their key, each
    with its rows in frame order.  With the default [dropna=True] a row
    whose key is missing belongs to no group. *)
Definition groupby {A : Type} (by_ : A -> option string) (df : list A)
  : list (string * list A) :=
  map (fun k => (k, filter (fun r => pd.cell_is (by_ r) k) df))
      (StringSort.sort (nodup string_dec (pd.dropna (map by_ df)))).

(** The six statistics both analyses compute for a group. *)
Record Stats : Type := mkStats {
  total_flights : nat;
  avg_price_diff : float;
  std_price_diff : float;
  avg_change_pct : float;
  min_change_pct : float;
  max_change_pct : float
}.

Record OtaRow : Type := mkOta {
  ota : string;
  ota_stats : Stats;
  avg_current_price : float;
  pricing_strategy : string
}.

Record RouteRow : Type := mkRoute {
  route_name : string;
  route_stats : Stats;
  num_otas : nat
}.

Definition col_price_diff (g : list Delta) : list float :=
  map (fun r => Fin (price_diff r)) g.
Definition col_change_pct (g : list Delta) : list float :=
  map change_pct g.
Definition col_price_eur_new (g : list Delta) : list float :=
  map (fun r => Fin (price_eur_new r)) g.
Definition col_gate (g : list Delta) : list (option string) :=
  map (fun r => gate (key r)) g.

(** [agg({'price_diff': ['count', 'mean', 'std'],
          'change_pct': ['mean', 'min', 'max']})] on one group. *)
Definition agg_stats `{np : Numpy} (g : list Delta) : Stats :=
  {| total_flights := agg.count (col_price_diff g);
     avg_price_diff := agg.mean (col_price_diff g);
     std_price_diff := agg.std (col_price_diff g);
     avg_change_pct := agg.mean (col_change_pct g);
     min_change_pct := agg.min (col_change_pct g);
     max_change_pct := agg.max (col_change_pct g) |}.

(** [.round(2)] on the statistics: the float columns are rounded, the
    integer count is left as it is. *)
Definition round_stats (s : Stats) : Stats :=
  {| total_flights := total_flights s;
     avg_price_diff := fl.round2 (avg_price_diff s);
     std_price_diff := fl.round2 (std_price_diff s);
     avg_change_pct := fl.round2 (avg_change_pct s);
     min_change_pct := fl.round2 (min_change_pct s);
     max_change_pct := fl.round2 (max_change_pct s) |}.

(** The lambda of [analyze_ota_changes]. *)
Definition strategy (x : float) : string :=
  if (x >? Fin 5)%float then "Aggressive Increase"
  else if (x >? Fin 1)%float then "Moderate Increase"
  else if (fl.abs x <=? Fin 1)%float then "Stable"
  else if (x >? Fin (-5))%float then "Moderate Decrease"
  else "Aggressive Decrease".

(** ** Sorting a frame by a column *)

(** [a[indexer]]: the elements of [a] at the given positions. *)
Definition take {A : Type} (a : list A) (indexer : list nat) : list A :=
  flat_map
    (fun i => match nth_error a i with Some x => [x] | None => [] end)
    indexer.

(** [nargsort(items, kind='quicksort', ascending, na_position='last')] of
    pandas: the missing values are set aside and placed last; for a
    descending sort the values are reversed, sorted ascending, and the
    result is reversed again. *)
Definition nargsort `{np : Numpy} (items : list float) (ascending : bool)
  : list nat :=
  let idx := seq 0 (List.length items) in
  let non_nans := filter fl.notna items in
  let non_nan_idx := filter (fun i => fl.notna (nth i items NaN)) idx in
  let nan_idx := filter (fun i => fl.isnan (nth i items NaN)) idx in
  let non_nans := if ascending then non_nans else rev non_nans in
  let non_nan_idx := if ascending then non_nan_idx else rev non_nan_idx in
  let indexer := take non_nan_idx (np_argsort non_nans) in
  let indexer := if ascending then indexer else rev indexer in
  indexer ++ nan_idx.

Definition sort_values `{np : Numpy} {A : Type} (by_ : A -> float)
    (ascending : bool) (df : list A) : list A :=
  take df (nargsort (map by_ df) ascending).

(** ** [analyze_ota_changes] and [analyze_route_changes] *)

Definition ota_row `{np : Numpy} (kg : string * list Delta) : OtaRow :=
  let (k, g) := kg in
  let s := round_stats (agg_stats g) in
  {| ota := k;
     ota_stats := s;
     avg_current_price := fl.round2 (agg.mean (col_price_eur_new g));
     pricing_strategy := strategy (avg_change_pct s) |}.

(** The frame [ota_analysis] before it is sorted. *)
Definition ota_analysis `{np : Numpy} (comparison_df : list Delta)
  : list OtaRow :=
  map ota_row (groupby (fun r => gate (key r)) comparison_df).

Definition analyze_ota_changes `{np : Numpy} (comparison_df : list Delta)
  : list OtaRow :=
  sort_values (fun r => avg_change_pct (ota_stats r)) false
    (ota_analysis comparison_df).

Definition route_row `{np : Numpy} (kg : string * list Delta) : RouteRow :=
  let (k, g) := kg in
  {| route_name := k;
     route_stats := round_stats (agg_stats g);
     num_otas := agg.nunique (col_gate g) |}.

(** The frame [route_analysis] before it is sorted. *)
Definition route_analysis `{np : Numpy} (comparison_df : list Delta)
  : list RouteRow :=
  map route_row (groupby route comparison_df).

Definition analyze_route_changes `{np : Numpy} (comparison_df : list Delta)
  : list RouteRow :=
  sort_values (fun r => avg_change_pct (route_stats r)) false
    (route_analysis comparison_df).

(** The order of a descending sort with the missing values last: a later
    value is missing or not above an earlier one. *)
Definition descending (x y : float) : Prop :=
  fl.isnan y = true \/ fl.leb y x = true.

(** A value with at most two decimal places; the special values count as
    rounded. *)
Definition two_decimals (x : float) : Prop :=
  match x with
  | Fin q => exists z : Z, q = z # 100
  | _ => True
  end.


(** The same record with another label. *)
Definition relabel (f : Delta -> option string) (r : Delta) : Delta :=
  {| key := key r;
     price_eur_new := price_eur_new r;
     price_eur_old := price_eur_old r;
     price_diff := price_diff r;
     change_pct := change_pct r;
     route := route r;
     change_type := f r |}.

(** No key of one frame occurs in the other. *)
Definition share_no_key (older newer : list Observation) : bool :=
  forallb
    (fun n => forallb (fun o => negb (key_eqb (obs_key n) (obs_key o))) older)
    newer.

(** ** The report: [create_comparison_visualizations] and
    [generate_comparison_report] *)

(** What a run of the report can raise: an exception of the comparison,
    the division by zero of the summary text, an exception of a plotting
    call, or the failure to write a file. *)
Inductive error : Type :=
| Raised (e : exn)
| ZeroDivisionError
| PlotError (msg : string)
| OSError (path : string).

Module summary.

(** The numbers of the summary text (subplot 9). *)
Record t : Type := mk {
  total_flights : nat;
  changed_flights : nat;
  changed_share : Q;
  avg_change : float;
  max_increase : float;
  max_decrease : float;
  active_otas : nat;
  routes_monitored : nat
}.

End summary.

(** The rows with a price difference other than zero. *)
Definition changed (comparison_df : list Delta) : list Delta :=
  filter (fun r => negb (Qeq_bool (price_diff r) 0)) comparison_df.

(** The summary statistics and the f-string built from them.  The share
    of changed flights is [changed_flights/total_flights*100] on Python
    integers, which raises on an empty frame. *)
Definition summary_stats (comparison_df : list Delta)
  : (error + summary.t)%type :=
  let total_flights := List.length comparison_df in
  let changed_flights := List.length (changed comparison_df) in
  let avg_change := agg.mean (col_change_pct comparison_df) in
  let max_increase := agg.max (col_price_diff comparison_df) in
  let max_decrease := agg.min (col_price_diff comparison_df) in
  match total_flights with
  | O => inl ZeroDivisionError
  | _ =>
      inr {| summary.total_flights := total_flights;
             summary.changed_flights := changed_flights;
             summary.changed_share :=
               inject_Z (Z.of_nat changed_flights)
               / inject_Z (Z.of_nat total_flights) * 100;
             summary.avg_change := avg_change;
             summary.max_increase := max_increase;
             summary.max_decrease := max_decrease;
             summary.active_otas := agg.nunique (col_gate comparison_df);
             summary.routes_monitored :=
               agg.nunique (map route comparison_df) |}
  end.

(** The matplotlib calls, taken as they come: the charts drawn before the
    summary text, the calls that place the text, the rendering of the
    figure by [savefig] and [plt.show], each of which returns or
    raises. *)
Class Matplotlib : Type := {
  draw_charts : list Delta -> string -> string -> option string;
  draw_summary : summary.t -> option string;
  savefig : string -> option string;
  show : option string
}.

(** The file system, taken as it comes: the paths at which a file can be
    written. *)
Class Disk : Type := {
  writable : string -> bool
}.

(** The content of an output file. *)
Inductive Content : Type :=
| PngFigure
| DeltaCsv (rows : list Delta)
| OtaCsv (rows : list OtaRow)
| RouteCsv (rows : list RouteRow).

(** The files written so far, oldest first. *)
Definition Files : Type := list (string * Content).

(** A computation that writes files and returns or raises. *)
Definition IO (A : Type) : Type := Files -> (error + A) * Files.

Definition io_ret {A} (a : A) : IO A := fun fs => (inr a, fs).
Definition io_raise {A} (e : error) : IO A := fun fs => (inl e, fs).
Definition io_bind {A B} (m : IO A) (k : A -> IO B) : IO B :=
  fun fs =>
    match m fs with
    | (inl e, fs') => (inl e, fs')
    | (inr a, fs') => k a fs'
    end.

Notation "x <-- m ;; k" := (io_bind m (fun x => k))
  (at level 61, m at next level, right associativity).

(** Writing a file appends it to the files written, or raises and writes
    nothing. *)
Definition write_file `{disk : Disk} (path : string) (c : Content)
  : IO unit :=
  fun fs =>
    if writable path then (inr tt, fs ++ [(path, c)])
    else (inl (OSError path), fs).

Definition plot (outcome : option string) : IO unit :=
  match outcome with
  | Some msg => io_raise (PlotError msg)
  | None => io_ret tt
  end.

Definition lift {A} (m : (error + A)%type) : IO A :=
  match m with
  | inl e => io_raise e
  | inr a => io_ret a
  end.

Definition lift_exn {A} (m : result A) : IO A :=
  match m with
  | inl e => io_raise (Raised e)
  | inr a => io_ret a
  end.

Definition results_dir : string := "analysis_results".

(** [results_dir / f"{stem}_{date1}_to_{date2}{suffix}"]. *)
Definition results_path (stem date1 date2 suffix : string) : string :=
  (results_dir ++ "/" ++ stem ++ "_" ++ date1 ++ "_to_" ++ date2
   ++ suffix)%string.

Definition create_comparison_visualizations `{mpl : Matplotlib}
    `{disk : Disk} (comparison_df : list Delta) (date1 date2 : string)
  : IO unit :=
  _ <-- plot (draw_charts comparison_df date1 date2) ;;
  stats <-- lift (summary_stats comparison_df) ;;
  _ <-- plot (draw_summary stats) ;;
  let filepath := results_path "price_comparison" date1 date2 ".png" in
  _ <-- plot (savefig filepath) ;;
  _ <-- write_file filepath PngFigure ;;
  plot show.

Definition generate_comparison_report `{np : Numpy} `{mpl : Matplotlib}
    `{disk : Disk} (snapshots_dir : Snapshots) (date1 date2 : string)
  : IO (list Delta * list OtaRow * list RouteRow) :=
  comparison_df <-- lift_exn (compare_snapshots snapshots_dir date1 date2) ;;
  let ota_analysis := analyze_ota_changes comparison_df in
  let route_analysis := analyze_route_changes comparison_df in
  _ <-- create_comparison_visualizations comparison_df date1 date2 ;;
  _ <-- write_file (results_path "detailed_comparison" date1 date2 ".csv")
          (DeltaCsv comparison_df) ;;
  _ <-- write_file (results_path "ota_analysis" date1 date2 ".csv")
          (OtaCsv ota_analysis) ;;
  _ <-- write_file (results_path "route_analysis" date1 date2 ".csv")
          (RouteCsv route_analysis) ;;
  io_ret (comparison_df, ota_analysis, route_analysis).

(** The four files of a finished report, in the order they are written. *)
Definition report_files `{np : Numpy} (date1 date2 : string)
    (comparison_df : list Delta) : Files :=
  [(results_path "price_comparison" date1 date2 ".png", PngFigure);
   (results_path "detailed_comparison" date1 date2 ".csv",
    DeltaCsv comparison_df);
   (results_path "ota_analysis" date1 date2 ".csv",
    OtaCsv (analyze_ota_changes comparison_df));
   (results_path "route_analysis" date1 date2 ".csv",
    RouteCsv (analyze_route_changes comparison_df))].

(** The run of a report from the point where the figure is drawn, step
    by step: render and save the figure, show it, write the three
    tables. *)
Definition save_report `{np : Numpy} `{mpl : Matplotlib} `{disk : Disk}
    (date1 date2 : string) (df : list Delta) (files : Files)
  : (error + list Delta * list OtaRow * list RouteRow) * Files :=
  let png := results_path "price_comparison" date1 date2 ".png" in
  let detailed := results_path "detailed_comparison" date1 date2 ".csv" in
  let ota_csv := results_path "ota_analysis" date1 date2 ".csv" in
  let route_csv := results_path "route_analysis" date1 date2 ".csv" in
  let written := report_files date1 date2 df in
  match savefig png with
  | Some msg => (inl (PlotError msg), files)
  | None =>
      if negb (writable png) then (inl (OSError png), files)
      else
        match show with
        | Some msg => (inl (PlotError msg), files ++ firstn 1 written)
        | None =>
            if negb (writable detailed)
            then (inl (OSError detailed), files ++ firstn 1 written)
            else if negb (writable ota_csv)
            then (inl (OSError ota_csv), files ++ firstn 2 written)
            else if negb (writable route_csv)
            then (inl (OSError route_csv), files ++ firstn 3 written)
            else (inr (df, analyze_ota_changes df,
                       analyze_route_changes df),
                  files ++ written)
        end
  end.

(** Plotting calls that never raise. *)
Definition quiet_plots : Matplotlib := {|
  draw_charts := fun _ _ _ => None;
  draw_summary := fun _ => None;
  savefig := fun _ => None;
  show := None
|}.

(** Plotting calls on a machine without a display: the figure is drawn
    and rendered, and [plt.show] raises. *)
Definition headless_plots : Matplotlib := {|
  draw_charts := fun _ _ _ => None;
  draw_summary := fun _ => None;
  savefig := fun _ => None;
  show := Some "cannot show the figure"
|}.

(** A file system on which every write succeeds. *)
Definition open_disk : Disk := {| writable := fun _ => true |}.

(** The three columns of a record that come from the snapshots, and the
    same columns with the two prices exchanged. *)
Definition prices (r : Delta) : FlightKey * Q * Q :=
  (key r, price_eur_new r, price_eur_old r).

Definition prices_swapped (r : Delta) : FlightKey * Q * Q :=
  (key r, price_eur_old r, price_eur_new r).

(** The number a finite value stands for. *)
Definition finite_part (x : float) : Q :=
  match x with
  | Fin q => q
  | _ => 0
  end.

(** ** Two sorting kernels

    The first kernel sorts by insertion, as numpy's scalar quicksort does
    on a short array: it is stable.  The second one is the sort of
    numpy's vectorised [argsort] on an array that fits one register of
    four lanes. *)

Definition lane : Type := (float * nat)%type.

Definition goes_before (p h : lane) : bool := fl.leb (fst p) (fst h).

Fixpoint insert (p : lane) (l : list lane) : list lane :=
  match l with
  | [] => [p]
  | h :: t => if goes_before p h then p :: l else h :: insert p t
  end.

Definition isort (l : list lane) : list lane := fold_right insert [] l.

Definition insertion_argsort (a : list float) : list nat :=
  map snd (isort (combine a (seq 0 (List.length a)))).

(** The lane [i] of the register: the key at position [i] with its
    index, or [+inf] past the end of the array. *)
Definition load (a : list float) (i : nat) : lane :=
  match nth_error a i with
  | Some x => (x, i)
  | None => (PInf, i)
  end.

(** A compare-exchange step: the lower lane gets the smaller key, and a
    lane that keeps its key keeps its index, so that two lanes are
    exchanged only when their keys are strictly out of order. *)
Definition cmp_exchange (lo hi : lane) : lane * lane :=
  if fl.ltb (fst hi) (fst lo) then (hi, lo) else (lo, hi).

(** The bitonic network on four lanes: neighbours, then the mirrored
    pairs, then neighbours again. *)
Definition sort_lanes (v : lane * lane * lane * lane)
  : lane * lane * lane * lane :=
  let '(l0, l1, l2, l3) := v in
  let '(l0, l1) := cmp_exchange l0 l1 in
  let '(l2, l3) := cmp_exchange l2 l3 in
  let '(l0, l3) := cmp_exchange l0 l3 in
  let '(l1, l2) := cmp_exchange l1 l2 in
  let '(l0, l1) := cmp_exchange l0 l1 in
  let '(l2, l3) := cmp_exchange l2 l3 in
  (l0, l1, l2, l3).

(** The indices of the sorted lanes that hold a key of the array.  An
    array of more than four keys, which numpy first partitions, is sorted
    by insertion here. *)
Definition network_argsort (a : list float) : list nat :=
  let n := List.length a in
  if (n <=? 4)%nat then
    let '(l0, l1, l2, l3) :=
      sort_lanes (load a 0, load a 1, load a 2, load a 3) in
    map snd (firstn n [l0; l1; l2; l3])
  else insertion_argsort a.

(** A square root correct to twelve decimal places, for the examples. *)
Definition sqrt12 (q : Q) : Q :=
  Z.sqrt (Qfloor (q * inject_Z (10 ^ 24))) # (10 ^ 12).

(** ** Example snapshots *)

(** A snapshot directory that holds two dates. *)
Definition two_snapshots (date1 : string) (older : list Observation)
    (date2 : string) (newer : list Observation) : Snapshots :=
  fun date_str =>
    if date_str =? date1 then Some older
    else if date_str =? date2 then Some newer
    else None.

Definition bcn_mad_x : FlightKey := mkKey "BCN" "MAD" "2025-07-01" "AgentX".
Definition ist_nrt_y : FlightKey := mkKey "IST" "NRT" "2025-08-10" "AgentY".
Definition bcn_mad_y : FlightKey := mkKey "BCN" "MAD" "2025-07-01" "AgentY".

(** One flight at 80 euros, then at 84. *)
Definition rising_dir : Snapshots :=
  two_snapshots "20250617" [mkObs bcn_mad_x 80]
                "20250618" [mkObs bcn_mad_x 84].

(** One flight quoted at zero on both dates. *)
Definition free_dir : Snapshots :=
  two_snapshots "20250617" [mkObs bcn_mad_x 0]
                "20250618" [mkObs bcn_mad_x 0].

(** One flight at 100 euros, then at 95. *)
Definition falling_dir : Snapshots :=
  two_snapshots "20250617" [mkObs bcn_mad_x 100]
                "20250618" [mkObs bcn_mad_x 95].

(** Two agents that keep their price. *)
Definition steady_dir : Snapshots :=
  two_snapshots "20250617" [mkObs bcn_mad_x 80; mkObs bcn_mad_y 90]
                "20250618" [mkObs bcn_mad_x 80; mkObs bcn_mad_y 90].

(** Four agents on one flight: two keep their price, two raise it by ten
    percent. *)
Definition bcn_mad (agent : string) : FlightKey :=
  mkKey "BCN" "MAD" "2025-07-01" agent.

Definition tied_dir : Snapshots :=
  two_snapshots
    "20250617" [mkObs (bcn_mad "AgentA") 80; mkObs (bcn_mad "AgentB") 90;
                mkObs (bcn_mad "AgentC") 100; mkObs (bcn_mad "AgentD") 200]
    "20250618" [mkObs (bcn_mad "AgentA") 80; mkObs (bcn_mad "AgentB") 90;
                mkObs (bcn_mad "AgentC") 110; mkObs (bcn_mad "AgentD") 220].

(** One flight whose agent cell holds the text [NA], at 80 euros, then at
    84. *)
Definition unnamed_dir : Snapshots :=
  two_snapshots "20250617" [mkObs (bcn_mad "NA") 80]
                "20250618" [mkObs (bcn_mad "NA") 84].

(** The record of a flight that goes from 80 to 84 euros. *)
Definition rising_delta : Delta :=
  delta_row (mkObs bcn_mad_x 84) (mkObs bcn_mad_x 80).

(** The delta table of a flight that goes from 100 to 95 euros. *)
Definition falling_deltas : list Delta :=
  compare_frames [mkObs bcn_mad_x 100] [mkObs bcn_mad_x 95].


(** The same flight twice in the older snapshot and twice in the newer
    one, next to a flight that only the newer snapshot has. *)
Definition fanout_dir : Snapshots :=
  two_snapshots
    "20250617" [mkObs bcn_mad_x 80; mkObs bcn_mad_x 85]
    "20250618" [mkObs bcn_mad_x 84; mkObs ist_nrt_y 500; mkObs bcn_mad_x 90].

(** Two snapshots without a common flight. *)
Definition disjoint_dir : Snapshots :=
  two_snapshots "20250617" [mkObs ist_nrt_y 500]
                "20250618" [mkObs bcn_mad_x 84].

(** * Properties *)

(** ** The order on floats *)

Lemma Qltb_lt (a b : Q) : fl.Qltb a b = true <-> a < b.
Proof.
  unfold fl.Qltb. rewrite Qlt_alt.
  destruct (a ?= b); split; intro H; congruence.
Qed.

Lemma Qltb_ge (a b : Q) : fl.Qltb a b = false <-> b <= a.
Proof.
  rewrite <- not_true_iff_false, Qltb_lt. split; intro H; lra.
Qed.

Lemma Qle_bool_gt (a b : Q) : Qle_bool a b = false <-> b < a.
Proof.
  rewrite <- not_true_iff_false, Qle_bool_iff. split; intro H; lra.
Qed.

(** Turn the boolean comparisons of the context into inequalities, then
    settle a conjunction of equivalences between labels and bounds. *)
Ltac q_props :=
  rewrite ?Qltb_lt, ?Qltb_ge, ?Qle_bool_iff, ?Qle_bool_gt in *.

Ltac by_bounds :=
  q_props; cbn [andb];
  repeat split; intros; try congruence; try lra; exfalso; lra.

Lemma leb_trans (x y z : float) :
  fl.leb x y = true -> fl.leb y z = true -> fl.leb x z = true.
Proof.
  destruct x, y, z; simpl; try congruence.
  rewrite !Qle_bool_iff. intros; lra.
Qed.

Lemma ltb_false_leb (x y : float) :
  fl.notna x = true -> fl.notna y = true ->
  fl.ltb x y = false -> fl.leb y x = true.
Proof.
  destruct x, y; cbn; try congruence.
  rewrite Qltb_ge, Qle_bool_iff. auto.
Qed.

Lemma leb_false_leb (x y : float) :
  fl.notna x = true -> fl.notna y = true ->
  fl.leb x y = false -> fl.leb y x = true.
Proof.
  destruct x, y; cbn; try congruence.
  rewrite Qle_bool_gt, Qle_bool_iff. intros; lra.
Qed.

(** ** Positions and [take] *)

Lemma take_app {A} (a : list A) (i j : list nat) :
  take a (i ++ j) = take a i ++ take a j.
Proof. unfold take. apply flat_map_app. Qed.

Lemma take_rev {A} (a : list A) (i : list nat) :
  take a (rev i) = rev (take a i).
Proof.
  induction i as [|x i IH]; simpl; [reflexivity|].
  rewrite take_app, IH, rev_app_distr. simpl.
  destruct (nth_error a x); reflexivity.
Qed.

Lemma take_in_range {A} (d : A) (a : list A) (idx : list nat) :
  Forall (fun i => (i < List.length a)%nat) idx ->
  take a idx = map (fun i => nth i a d) idx.
Proof.
  induction 1 as [|i idx Hi _ IH]; simpl; [reflexivity|].
  rewrite IH. apply (nth_error_nth' a d) in Hi. rewrite Hi. reflexivity.
Qed.

Lemma take_seq {A} (a : list A) : take a (seq 0 (List.length a)) = a.
Proof.
  assert (G : forall (pre : list A),
             take (pre ++ a) (seq (List.length pre) (List.length a)) = a).
  { induction a as [|x a IH]; intro pre; simpl; [reflexivity|].
    rewrite nth_error_app2, Nat.sub_diag by lia. simpl. f_equal.
    specialize (IH (pre ++ [x])).
    rewrite <- app_assoc, length_app in IH. simpl in IH.
    rewrite Nat.add_1_r in IH. exact IH. }
  exact (G []).
Qed.

Lemma take_map {A B} (f : A -> B) (a : list A) (idx : list nat) :
  take (map f a) idx = map f (take a idx).
Proof.
  induction idx as [|i idx IH]; simpl; [reflexivity|].
  rewrite map_app, IH, nth_error_map.
  destruct (nth_error a i); reflexivity.
Qed.

Lemma take_perm {A} (a : list A) (i j : list nat) :
  Permutation i j -> Permutation (take a i) (take a j).
Proof.
  induction 1; simpl.
  - constructor.
  - apply Permutation_app_head. assumption.
  - rewrite !app_assoc. apply Permutation_app_tail, Permutation_app_comm.
  - etransitivity; eassumption.
Qed.

Lemma perm_seq_in_range (p : list nat) (n : nat) :
  Permutation p (seq 0 n) -> Forall (fun i => (i < n)%nat) p.
Proof.
  intro H. apply Forall_forall. intros i Hi.
  apply (Permutation_in _ H), in_seq in Hi. lia.
Qed.

Lemma filter_split_perm {A} (p : A -> bool) (l : list A) :
  Permutation (filter p l ++ filter (fun x => negb (p x)) l) l.
Proof.
  induction l as [|x l IH]; simpl; [constructor|].
  destruct (p x); simpl.
  - constructor. exact IH.
  - apply Permutation_sym, Permutation_cons_app, Permutation_sym, IH.
Qed.

Lemma map_snd_combine {A B} (a : list A) (b : list B) :
  List.length a = List.length b -> map snd (combine a b) = b.
Proof.
  revert b. induction a as [|x a IH]; intros [|y b] H; simpl in *;
    try discriminate; [reflexivity|].
  f_equal. apply IH. lia.
Qed.

(** The positions that pass a test on the value hold the values that pass
    it. *)
Lemma take_filter_idx {A} (d : A) (p : A -> bool) (a : list A) :
  take a (filter (fun i => p (nth i a d)) (seq 0 (List.length a)))
  = filter p a.
Proof.
  assert (G : forall (pre : list A),
             take (pre ++ a)
               (filter (fun i => p (nth i (pre ++ a) d))
                  (seq (List.length pre) (List.length a)))
             = filter p a).
  { induction a as [|x a IH]; intro pre; simpl; [reflexivity|].
    rewrite app_nth2, Nat.sub_diag by lia. simpl.
    specialize (IH (pre ++ [x])).
    rewrite <- app_assoc, length_app in IH. simpl in IH.
    rewrite Nat.add_1_r in IH.
    destruct (p x); simpl; [|exact IH].
    rewrite nth_error_app2, Nat.sub_diag by lia. simpl. f_equal. exact IH. }
  exact (G []).
Qed.

(** ** The insertion kernel meets the contract of [argsort] *)

Section InsertionArgsortFacts.

Let R (p h : lane) : Prop := fl.leb (fst p) (fst h) = true.

Lemma insert_perm p l : Permutation (insert p l) (p :: l).
Proof.
  induction l as [|h t IH]; simpl; [constructor; constructor|].
  destruct (goes_before p h); [apply Permutation_refl|].
  etransitivity; [constructor; exact IH | constructor].
Qed.

Lemma isort_perm l : Permutation (isort l) l.
Proof.
  induction l as [|p l IH]; simpl; [constructor|].
  etransitivity; [apply insert_perm | constructor; exact IH].
Qed.

Lemma insert_sorted p l :
  fl.notna (fst p) = true ->
  Forall (fun h => fl.notna (fst h) = true) l ->
  StronglySorted R l -> StronglySorted R (insert p l).
Proof.
  intros Hp Hl Hs. induction Hs as [|h t Hs IH Hh]; simpl.
  - repeat constructor.
  - inversion Hl as [|? ? Hnh Hnt]; subst.
    destruct (goes_before p h) eqn:E.
    + constructor; [constructor; assumption|].
      constructor; [exact E|].
      eapply Forall_impl; [|exact Hh].
      intros x Hx. unfold R in *. eapply leb_trans; eassumption.
    + apply leb_false_leb in E; try assumption.
      constructor; [apply IH; assumption|].
      apply Forall_forall. intros x Hx.
      apply (Permutation_in _ (insert_perm p t)) in Hx.
      destruct Hx as [<-|Hx]; [exact E|].
      rewrite Forall_forall in Hh. auto.
Qed.

Lemma isort_sorted l :
  Forall (fun h => fl.notna (fst h) = true) l ->
  StronglySorted R (isort l).
Proof.
  induction 1 as [|p l Hp Hl IH]; simpl; [constructor|].
  apply insert_sorted; try assumption.
  apply Forall_forall. intros x Hx.
  apply (Permutation_in _ (isort_perm l)) in Hx.
  rewrite Forall_forall in Hl. auto.
Qed.

Lemma combine_seq_nth (a pre : list float) :
  Forall (fun p => nth (snd p) (pre ++ a) NaN = fst p)
    (combine a (seq (List.length pre) (List.length a))).
Proof.
  revert pre. induction a as [|x a IH]; intro pre; simpl; constructor.
  - simpl. rewrite app_nth2, Nat.sub_diag by lia. reflexivity.
  - specialize (IH (pre ++ [x])).
    rewrite <- app_assoc, length_app in IH. simpl in IH.
    rewrite Nat.add_1_r in IH. exact IH.
Qed.

Lemma insertion_argsort_perm a :
  Permutation (insertion_argsort a) (seq 0 (List.length a)).
Proof.
  unfold insertion_argsort.
  etransitivity; [apply Permutation_map, isort_perm|].
  rewrite map_snd_combine; [reflexivity|].
  now rewrite length_seq.
Qed.

Lemma insertion_argsort_sorted a :
  forallb fl.notna a = true ->
  StronglySorted
    (fun i j => fl.leb (nth i a NaN) (nth j a NaN) = true)
    (insertion_argsort a).
Proof.
  intro Ha. unfold insertion_argsort.
  set (l := combine a (seq 0 (List.length a))).
  assert (Hkey : Forall (fun p => nth (snd p) a NaN = fst p) l)
    by exact (combine_seq_nth a []).
  assert (Hna : Forall (fun h => fl.notna (fst h) = true) l).
  { apply Forall_forall. intros [v i] Hin. simpl.
    apply in_combine_l in Hin.
    rewrite forallb_forall in Ha. auto. }
  assert (Hkey' : Forall (fun p => nth (snd p) a NaN = fst p)
                    (isort l)).
  { apply Forall_forall. intros x Hx.
    apply (Permutation_in _ (isort_perm l)) in Hx.
    rewrite Forall_forall in Hkey. auto. }
  pose proof (isort_sorted l Hna) as Hs.
  induction Hs as [|h t Hs IH Hh]; simpl; constructor.
  - apply IH. now inversion Hkey'.
  - inversion Hkey' as [|? ? Hk Hkt]; subst.
    apply Forall_map. rewrite Forall_forall in *.
    intros x Hx. rewrite Hk, (Hkt x Hx). apply Hh, Hx.
Qed.

End InsertionArgsortFacts.

(** ** The network meets the contract of [argsort] *)

Lemma ltb_pinf (x : float) : fl.ltb PInf x = false.
Proof. destruct x; reflexivity. Qed.

Lemma ltb_leb (x y : float) : fl.ltb x y = true -> fl.leb x y = true.
Proof.
  destruct x, y; cbn; try congruence.
  rewrite Qltb_lt, Qle_bool_iff. intros; lra.
Qed.

Lemma perm_seq_check (l : list nat) (n : nat) :
  List.length l = n ->
  forallb (fun i => existsb (Nat.eqb i) l) (seq 0 n) = true ->
  Permutation l (seq 0 n).
Proof.
  intros Hlen Hall. apply Permutation_sym, NoDup_Permutation_bis.
  - apply seq_NoDup.
  - rewrite length_seq. lia.
  - intros i Hi. rewrite forallb_forall in Hall. specialize (Hall i Hi).
    apply existsb_exists in Hall. destruct Hall as (j & Hj & E).
    apply Nat.eqb_eq in E. now subst.
Qed.

(** Run the steps of the network, one case for each outcome of a
    comparison; no lane is exchanged with a free lane. *)
Ltac run_network :=
  unfold network_argsort, sort_lanes, cmp_exchange, load;
  cbn [List.length Nat.leb nth_error fst snd];
  repeat first
    [ progress rewrite ltb_pinf
    | progress cbn [fst snd]
    | match goal with
      | |- context [if fl.ltb ?x ?y then _ else _] =>
          let E := fresh "E" in destruct (fl.ltb x y) eqn:E
      end ];
  cbn [firstn map snd].

Ltac order_facts :=
  repeat match goal with
         | E : fl.ltb _ _ = true |- _ => apply ltb_leb in E
         | E : fl.ltb _ _ = false |- _ =>
             apply ltb_false_leb in E; [|assumption|assumption]
         end.

Lemma network_argsort_perm a :
  Permutation (network_argsort a) (seq 0 (List.length a)).
Proof.
  destruct a as [|x0 [|x1 [|x2 [|x3 [|x4 a]]]]].
  - run_network. apply perm_seq_check; reflexivity.
  - run_network. apply perm_seq_check; reflexivity.
  - run_network; apply perm_seq_check; reflexivity.
  - run_network; apply perm_seq_check; reflexivity.
  - run_network; apply perm_seq_check; reflexivity.
  - unfold network_argsort.
    change (List.length (x0 :: x1 :: x2 :: x3 :: x4 :: a) <=? 4)%nat
      with false.
    apply insertion_argsort_perm.
Qed.

Lemma network_argsort_sorted a :
  forallb fl.notna a = true ->
  StronglySorted
    (fun i j => fl.leb (nth i a NaN) (nth j a NaN) = true)
    (network_argsort a).
Proof.
  intro Ha.
  destruct a as [|x0 [|x1 [|x2 [|x3 [|x4 a]]]]].
  6: { unfold network_argsort.
       change (List.length (x0 :: x1 :: x2 :: x3 :: x4 :: a) <=? 4)%nat
         with false.
       now apply insertion_argsort_sorted. }
  all: cbn [forallb] in Ha; rewrite ?andb_true_iff in Ha;
    repeat match goal with H : _ /\ _ |- _ => destruct H end;
    run_network; try discriminate; order_facts;
    repeat (constructor; cbn [nth]); eauto 4 using leb_trans.
Qed.

(** The kernel that keeps equal keys in input order. *)
Definition stable_numpy : Numpy := {|
  np_sqrt := sqrt12;
  np_argsort := insertion_argsort;
  np_argsort_perm := insertion_argsort_perm;
  np_argsort_sorted := insertion_argsort_sorted
|}.

(** The kernel of the vectorised sort. *)
Definition network_numpy : Numpy := {|
  np_sqrt := sqrt12;
  np_argsort := network_argsort;
  np_argsort_perm := network_argsort_perm;
  np_argsort_sorted := network_argsort_sorted
|}.

(** ** [sort_values] permutes the rows and orders them *)

Lemma StronglySorted_map {A B} (R : B -> B -> Prop) (f : A -> B) l :
  StronglySorted (fun x y => R (f x) (f y)) l <->
  StronglySorted R (map f l).
Proof.
  induction l as [|x l IH]; simpl; split; intro H;
    try constructor; inversion H; subst.
  - now apply IH.
  - now apply Forall_map.
  - now apply IH.
  - now apply Forall_map.
Qed.

Lemma StronglySorted_app {A} (R : A -> A -> Prop) l1 l2 :
  StronglySorted R l1 -> StronglySorted R l2 ->
  (forall x y, In x l1 -> In y l2 -> R x y) ->
  StronglySorted R (l1 ++ l2).
Proof.
  intros H1 H2 H. induction H1 as [|x l1 H1 IH Hx]; simpl; [exact H2|].
  constructor.
  - apply IH. intros; apply H; simpl; auto.
  - apply Forall_app. split; [exact Hx|].
    apply Forall_forall. intros y Hy. apply H; simpl; auto.
Qed.

Lemma StronglySorted_rev {A} (R : A -> A -> Prop) l :
  StronglySorted R l -> StronglySorted (fun x y => R y x) (rev l).
Proof.
  induction 1 as [|x l Hs IH Hx]; simpl; [constructor|].
  apply StronglySorted_app; [exact IH | repeat constructor |].
  intros a b Ha [<-|[]]. rewrite Forall_forall in Hx.
  apply Hx, in_rev, Ha.
Qed.

Lemma take_take {A} (d : A) (a : list A) (j p : list nat) :
  Forall (fun i => (i < List.length a)%nat) j ->
  take a (take j p) = take (take a j) p.
Proof.
  intro Hj. induction p as [|x p IH]; simpl; [reflexivity|].
  rewrite take_app, IH. f_equal.
  rewrite (take_in_range d a j Hj), nth_error_map.
  destruct (nth_error j x) as [i|] eqn:E; simpl; [|reflexivity].
  rewrite Forall_forall in Hj.
  rewrite (nth_error_nth' a d (Hj i (nth_error_In _ _ E))). reflexivity.
Qed.

Lemma filter_idx_in_range {A} (q : nat -> bool) (a : list A) :
  Forall (fun i => (i < List.length a)%nat)
    (filter q (seq 0 (List.length a))).
Proof.
  apply Forall_forall. intros i Hi.
  apply filter_In in Hi. destruct Hi as [Hi _].
  apply in_seq in Hi. lia.
Qed.

Lemma filter_idx_length {A} (d : A) (p : A -> bool) (a : list A) :
  List.length (filter (fun i => p (nth i a d)) (seq 0 (List.length a)))
  = List.length (filter p a).
Proof.
  rewrite <- (take_filter_idx d p a).
  rewrite (take_in_range d) by apply filter_idx_in_range.
  now rewrite length_map.
Qed.

Section SortValues.

Context `{np : Numpy}.

Lemma nargsort_perm (a : list float) (ascending : bool) :
  Permutation (nargsort a ascending) (seq 0 (List.length a)).
Proof.
  unfold nargsort.
  set (idx := seq 0 (List.length a)).
  set (J := filter (fun i => fl.notna (nth i a NaN)) idx).
  set (N := filter (fun i => fl.isnan (nth i a NaN)) idx).
  set (V := filter fl.notna a).
  set (Jx := if ascending then J else rev J).
  set (Vx := if ascending then V else rev V).
  assert (Hlen : List.length Vx = List.length Jx).
  { subst Vx Jx. destruct ascending; rewrite ?length_rev;
      symmetry; apply (filter_idx_length NaN fl.notna). }
  assert (HI : Permutation (take Jx (np_argsort Vx)) J).
  { etransitivity; [apply take_perm, np_argsort_perm|].
    rewrite Hlen, take_seq. subst Jx.
    destruct ascending; [reflexivity|].
    apply Permutation_sym, Permutation_rev. }
  etransitivity; [|apply (filter_split_perm
                           (fun i => fl.notna (nth i a NaN)) idx)].
  apply Permutation_app.
  - destruct ascending; [exact HI|].
    etransitivity; [apply Permutation_sym, Permutation_rev | exact HI].
  - subst N. erewrite filter_ext; [reflexivity|].
    intro i. unfold fl.notna. now rewrite negb_involutive.
Qed.

Lemma sort_values_perm {A} (by_ : A -> float) (ascending : bool)
    (df : list A) :
  Permutation (sort_values by_ ascending df) df.
Proof.
  unfold sort_values.
  etransitivity; [apply take_perm, nargsort_perm|].
  now rewrite length_map, take_seq.
Qed.

Lemma nargsort_descending (a : list float) :
  StronglySorted descending (take a (nargsort a false)).
Proof.
  unfold nargsort.
  rewrite take_app, take_rev, (take_filter_idx NaN fl.isnan a).
  rewrite (take_take NaN) by (apply Forall_rev, filter_idx_in_range).
  rewrite take_rev, (take_filter_idx NaN fl.notna a).
  set (V := filter fl.notna a).
  assert (HV : forallb fl.notna (rev V) = true).
  { apply forallb_forall. intros x Hx.
    apply in_rev, filter_In in Hx. tauto. }
  pose proof (np_argsort_sorted (rev V) HV) as Hs.
  pose proof (perm_seq_in_range _ _ (np_argsort_perm (rev V))) as Hr.
  rewrite (take_in_range NaN _ _ Hr).
  apply (StronglySorted_map
           (fun x y => fl.leb x y = true)
           (fun i => nth i (rev V) NaN)) in Hs.
  apply StronglySorted_rev in Hs.
  assert (Hnan : Forall (fun y => fl.isnan y = true) (filter fl.isnan a)).
  { apply Forall_forall. intros y Hy. apply filter_In in Hy. tauto. }
  apply StronglySorted_app.
  - clear -Hs. induction Hs as [|x l Hs IH Hx]; constructor; auto.
    eapply Forall_impl; [|exact Hx]. intros y Hy. right. exact Hy.
  - clear -Hnan. induction Hnan as [|x l Hx Hl IH]; constructor; auto.
    eapply Forall_impl; [|exact Hl]. intros y Hy. left. exact Hy.
  - intros x y _ Hy. left. rewrite Forall_forall in Hnan. auto.
Qed.

Lemma sort_values_descending {A} (by_ : A -> float) (df : list A) :
  StronglySorted (fun r s => descending (by_ r) (by_ s))
    (sort_values by_ false df).
Proof.
  apply StronglySorted_map. unfold sort_values.
  rewrite <- take_map. apply nargsort_descending.
Qed.

End SortValues.
(** ** The join *)

Lemma cell_eqb_eq (a b : option string) : pd.cell_eqb a b = true <-> a = b.
Proof.
  destruct a as [x|], b as [y|]; simpl; try (split; congruence).
  rewrite String.eqb_eq. split; congruence.
Qed.

Lemma cell_is_some (c : option string) (k : string) :
  pd.cell_is c k = true <-> c = Some k.
Proof.
  destruct c as [x|]; simpl; [|split; congruence].
  rewrite String.eqb_eq. split; congruence.
Qed.

Lemma in_dropna (col : list (option string)) (k : string) :
  In k (pd.dropna col) <-> In (Some k) col.
Proof.
  unfold pd.dropna. rewrite in_flat_map. split.
  - intros ([x|] & Hc & Hk); simpl in Hk; [|contradiction].
    destruct Hk as [<-|[]]. exact Hc.
  - intro H. exists (Some k). split; [exact H|now left].
Qed.

Lemma key_eqb_eq (a b : FlightKey) : key_eqb a b = true <-> a = b.
Proof.
  unfold key_eqb. rewrite !andb_true_iff, !cell_eqb_eq.
  destruct a, b; simpl. split.
  - intros [[[-> ->] ->] ->]. reflexivity.
  - intro E. inversion E. auto.
Qed.

Lemma key_eqb_refl (a : FlightKey) : key_eqb a a = true.
Proof. now apply key_eqb_eq. Qed.

Lemma compare_snapshots_loaded snapshots_dir date1 date2 older newer :
  snapshots_dir date1 = Some older ->
  snapshots_dir date2 = Some newer ->
  compare_snapshots snapshots_dir date1 date2
  = inr (compare_frames older newer).
Proof.
  intros H1 H2. unfold compare_snapshots, load_snapshot.
  rewrite H1, H2. reflexivity.
Qed.

Lemma compare_snapshots_inv snapshots_dir date1 date2 deltas :
  compare_snapshots snapshots_dir date1 date2 = inr deltas ->
  exists older newer,
    snapshots_dir date1 = Some older /\
    snapshots_dir date2 = Some newer /\
    deltas = compare_frames older newer.
Proof.
  unfold compare_snapshots, load_snapshot.
  destruct (snapshots_dir date1) as [older|]; simpl; [|discriminate].
  destruct (snapshots_dir date2) as [newer|]; simpl; [|discriminate].
  intro E. inversion E. eauto.
Qed.

Lemma in_compare_frames older newer r :
  In r (compare_frames older newer) <->
  exists n o, In n newer /\ In o older /\ obs_key n = obs_key o
              /\ r = delta_row n o.
Proof.
  unfold compare_frames, pd.merge. rewrite in_flat_map. split.
  - intros (n & Hn & Hr). apply in_map_iff in Hr.
    destruct Hr as (o & <- & Ho). apply filter_In in Ho.
    destruct Ho as [Ho E]. apply key_eqb_eq in E. eauto 6.
  - intros (n & o & Hn & Ho & E & ->). exists n. split; [exact Hn|].
    apply in_map, filter_In. split; [exact Ho|]. now apply key_eqb_eq.
Qed.

(** The matched pairs, in the order of the merge. *)
Definition matched_pairs (older newer : list Observation)
  : list (Observation * Observation) :=
  filter (fun p => key_eqb (obs_key (fst p)) (obs_key (snd p)))
    (list_prod newer older).

(** How many rows carry the key [k]. *)
Definition rows_with_key (k : FlightKey) (df : list Observation) : nat :=
  List.length (filter (fun o => key_eqb (obs_key o) k) df).

Definition deltas_with_key (k : FlightKey) (deltas : list Delta) : nat :=
  List.length (filter (fun r => key_eqb (key r) k) deltas).

Lemma compare_frames_pairs older newer :
  compare_frames older newer
  = map (fun p => delta_row (fst p) (snd p)) (matched_pairs older newer).
Proof.
  unfold compare_frames, pd.merge, matched_pairs.
  induction newer as [|n newer IH]; simpl; [reflexivity|].
  rewrite filter_app, map_app, IH. f_equal. clear IH.
  induction older as [|o older IHo]; simpl; [reflexivity|].
  destruct (key_eqb (obs_key n) (obs_key o)); simpl; now rewrite IHo.
Qed.

Lemma compare_frames_count older newer k :
  deltas_with_key k (compare_frames older newer)
  = (rows_with_key k newer * rows_with_key k older)%nat.
Proof.
  unfold deltas_with_key, rows_with_key, compare_frames, pd.merge.
  induction newer as [|n newer IH]; simpl; [reflexivity|].
  rewrite filter_app, length_app, IH.
  assert (E : List.length
                (filter (fun r => key_eqb (key r) k)
                   (map (delta_row n)
                      (filter (fun r => key_eqb (obs_key n) (obs_key r))
                         older)))
              = if key_eqb (obs_key n) k
                then List.length
                       (filter (fun o => key_eqb (obs_key o) k) older)
                else O).
  { clear IH. induction older as [|o older IHo]; simpl.
    - now destruct (key_eqb (obs_key n) k).
    - destruct (key_eqb (obs_key n) (obs_key o)) eqn:Eno; simpl.
      + apply key_eqb_eq in Eno. rewrite <- Eno.
        destruct (key_eqb (obs_key n) k); simpl; now rewrite IHo.
      + rewrite IHo. destruct (key_eqb (obs_key n) k) eqn:Enk;
          [|reflexivity].
        apply key_eqb_eq in Enk. subst k.
        destruct (key_eqb (obs_key o) (obs_key n)) eqn:Eon;
          [|reflexivity].
        apply key_eqb_eq in Eon. rewrite Eon, key_eqb_refl in Eno.
        discriminate. }
  rewrite E. destruct (key_eqb (obs_key n) k); simpl; lia.
Qed.

(** C1.  [compare_snapshots] is a full inner join on the flight key: it
    returns one row for each pair of a row of the newer and a row of the
    older snapshot that agree on (origin, destination, depart_date, gate),
    and nothing else.  A key that occurs m times in the newer and n times
    in the older snapshot therefore gives m * n rows, which is none when
    it is missing on one side; duplicates are not collapsed. *)
Theorem compare_snapshots_inner_join
    snapshots_dir date1 date2 older newer :
  snapshots_dir date1 = Some older ->
  snapshots_dir date2 = Some newer ->
  exists deltas,
    compare_snapshots snapshots_dir date1 date2 = inr deltas /\
    deltas = map (fun p => delta_row (fst p) (snd p))
               (matched_pairs older newer) /\
    (forall n o, In (n, o) (matched_pairs older newer) <->
                 In n newer /\ In o older /\ obs_key n = obs_key o) /\
    (forall r, In r deltas -> In (key r) (map obs_key newer)
                              /\ In (key r) (map obs_key older)) /\
    forall k, deltas_with_key k deltas
              = (rows_with_key k newer * rows_with_key k older)%nat.
Proof.
  intros H1 H2. exists (compare_frames older newer).
  split; [now apply compare_snapshots_loaded|].
  split; [apply compare_frames_pairs|].
  split; [|split].
  - intros n o. unfold matched_pairs.
    rewrite filter_In, in_prod_iff. simpl. rewrite key_eqb_eq. tauto.
  - intros r Hr. apply in_compare_frames in Hr.
    destruct Hr as (n & o & Hn & Ho & E & ->). simpl. split.
    + now apply in_map.
    + rewrite E. now apply in_map.
  - apply compare_frames_count.
Qed.

(** ** The classification *)

(** The category of a finite value, by comparison with the cut points. *)
Lemma cut_fin (q : Q) :
  pd.cut bins labels (Fin q)
  = if Qle_bool q (-5) then Some "Major Drop (>5%)"
    else if Qle_bool q (-1) then Some "Minor Drop (1-5%)"
    else if Qle_bool q 1 then Some "Stable (±1%)"
    else if Qle_bool q 5 then Some "Minor Increase (1-5%)"
    else Some "Major Increase (>5%)".
Proof.
  unfold pd.cut, bins, pd.searchsorted_left, pd.np_lt.
  cbn [fl.ltb fl.isnan fl.notna negb orb andb].
  rewrite !orb_false_r.
  destruct (fl.Qltb (-5) q) eqn:E1, (fl.Qltb (-1) q) eqn:E2,
    (fl.Qltb 1 q) eqn:E3, (fl.Qltb 5 q) eqn:E4,
    (Qle_bool q (-5)) eqn:F1, (Qle_bool q (-1)) eqn:F2,
    (Qle_bool q 1) eqn:F3, (Qle_bool q 5) eqn:F4;
    q_props; try reflexivity; exfalso; lra.
Qed.

(** The infinities: [+inf] lies in the last interval, [-inf] in none,
    the first interval being open on the left. *)
Lemma cut_infinities :
  pd.cut bins labels PInf = Some "Major Increase (>5%)" /\
  pd.cut bins labels NInf = None /\
  pd.cut bins labels NaN = None.
Proof. repeat split. Qed.

Lemma delta_row_change_type n o :
  change_type (delta_row n o) = pd.cut bins labels (change_pct (delta_row n o)).
Proof. reflexivity. Qed.

Lemma produced_change_type snapshots_dir date1 date2 deltas r :
  compare_snapshots snapshots_dir date1 date2 = inr deltas ->
  In r deltas ->
  change_type r = pd.cut bins labels (change_pct r).
Proof.
  intros H Hr. apply compare_snapshots_inv in H.
  destruct H as (older & newer & _ & _ & ->).
  apply in_compare_frames in Hr.
  destruct Hr as (n & o & _ & _ & _ & ->). apply delta_row_change_type.
Qed.

Lemma cut_fin_compat (q q' : Q) :
  q' == q -> pd.cut bins labels (Fin q') = pd.cut bins labels (Fin q).
Proof.
  intro E. rewrite !cut_fin.
  assert (Hc : forall c, Qle_bool q' c = Qle_bool q c)
    by (intro c; now rewrite E).
  now rewrite !Hc.
Qed.

Lemma cut_fin_buckets (q : Q) :
  let c := pd.cut bins labels (Fin q) in
  (c = Some "Major Drop (>5%)" <-> q <= -5) /\
  (c = Some "Minor Drop (1-5%)" <-> -5 < q /\ q <= -1) /\
  (c = Some "Stable (±1%)" <-> -1 < q /\ q <= 1) /\
  (c = Some "Minor Increase (1-5%)" <-> 1 < q /\ q <= 5) /\
  (c = Some "Major Increase (>5%)" <-> 5 < q).
Proof.
  cbv zeta. rewrite cut_fin.
  destruct (Qle_bool q (-5)) eqn:F1, (Qle_bool q (-1)) eqn:F2,
    (Qle_bool q 1) eqn:F3, (Qle_bool q 5) eqn:F4; by_bounds.
Qed.

Lemma cut_fin_label (q : Q) :
  exists b, In b labels /\ pd.cut bins labels (Fin q) = Some b.
Proof.
  rewrite cut_fin. unfold labels.
  destruct (Qle_bool q (-5)), (Qle_bool q (-1)), (Qle_bool q 1),
    (Qle_bool q 5); eexists; (split; [|reflexivity]); simpl; tauto.
Qed.

(** C2.  A record of [compare_snapshots] whose [change_pct] is a real
    number gets exactly one of the five labels, the lower bucket taking
    each cut point: Major Drop iff pct <= -5, Minor Drop iff
    -5 < pct <= -1, Stable iff -1 < pct <= 1, Minor Increase iff
    1 < pct <= 5, Major Increase iff pct > 5.  A pct of exactly 5 is a
    Minor Increase, and equal values always get the same label. *)
Theorem change_type_buckets snapshots_dir date1 date2 deltas r q :
  compare_snapshots snapshots_dir date1 date2 = inr deltas ->
  In r deltas ->
  change_pct r = Fin q ->
  (exists b, In b labels /\ change_type r = Some b) /\
  (change_type r = Some "Major Drop (>5%)" <-> q <= -5) /\
  (change_type r = Some "Minor Drop (1-5%)" <-> -5 < q /\ q <= -1) /\
  (change_type r = Some "Stable (±1%)" <-> -1 < q /\ q <= 1) /\
  (change_type r = Some "Minor Increase (1-5%)" <-> 1 < q /\ q <= 5) /\
  (change_type r = Some "Major Increase (>5%)" <-> 5 < q) /\
  (q == 5 -> change_type r = Some "Minor Increase (1-5%)") /\
  (forall r' q', In r' deltas -> change_pct r' = Fin q' -> q' == q ->
                 change_type r' = change_type r).
Proof.
  intros H Hr Hq.
  assert (Hcut : forall r' q', In r' deltas -> change_pct r' = Fin q' ->
                   change_type r' = pd.cut bins labels (Fin q')).
  { intros r' q' Hr' <-. eapply produced_change_type; eassumption. }
  rewrite (Hcut r q Hr Hq).
  pose proof (cut_fin_buckets q) as (B1 & B2 & B3 & B4 & B5).
  split; [apply cut_fin_label|].
  do 5 (split; [assumption|]). split.
  - intro E. apply B4. lra.
  - intros r' q' Hr' Hq' E. rewrite (Hcut r' q' Hr' Hq').
    now apply cut_fin_compat.
Qed.

(** ** A zero old price *)

Lemma delta_row_pct_cases n o :
  let r := delta_row n o in
  (~ price_eur o == 0 /\ exists q, change_pct r = Fin q) \/
  (price_eur o == 0 /\ 0 < price_eur n /\ change_pct r = PInf) \/
  (price_eur o == 0 /\ price_eur n < 0 /\ change_pct r = NInf) \/
  (price_eur o == 0 /\ price_eur n == 0 /\ change_pct r = NaN).
Proof.
  cbn.
  destruct (Qcompare_spec (price_eur o) 0) as [E|E|E].
  - right. unfold fl.signed_inf.
    destruct (Qcompare_spec (price_eur n - price_eur o) 0) as [D|D|D].
    + right; right. repeat split; [exact E | lra].
    + right; left. repeat split; [exact E | lra].
    + left. repeat split; [exact E | lra].
  - left. split; [lra | eexists; reflexivity].
  - left. split; [lra | eexists; reflexivity].
Qed.

(** C5, as the program has it.  [compare_snapshots] returns normally once
    both snapshots are loaded: a zero old price raises nothing.  A record
    whose [change_pct] is NaN, which happens exactly when the old and the
    new price are both zero, is left without a label: [pd.cut] gives it no
    category, and there is no "Undefined" bucket.  A zero old price with a
    positive new price gives [+inf], labelled as a major increase. *)
Theorem undefined_change_pct_has_no_label
    snapshots_dir date1 date2 older newer :
  snapshots_dir date1 = Some older ->
  snapshots_dir date2 = Some newer ->
  exists deltas,
    compare_snapshots snapshots_dir date1 date2 = inr deltas /\
    forall r, In r deltas ->
      (change_pct r = NaN <->
       price_eur_old r == 0 /\ price_eur_new r == 0) /\
      (change_pct r = NaN -> change_type r = None) /\
      (price_eur_old r == 0 -> 0 < price_eur_new r ->
       change_pct r = PInf /\
       change_type r = Some "Major Increase (>5%)").
Proof.
  intros H1 H2. exists (compare_frames older newer).
  split; [now apply compare_snapshots_loaded|].
  intros r Hr. apply in_compare_frames in Hr.
  destruct Hr as (n & o & _ & _ & _ & ->).
  rewrite delta_row_change_type.
  change (price_eur_old (delta_row n o)) with (price_eur o).
  change (price_eur_new (delta_row n o)) with (price_eur n).
  destruct (delta_row_pct_cases n o)
    as [(Z & q & E)|[(Z & P & E)|[(Z & P & E)|(Z & P & E)]]];
    rewrite E; repeat split; intros;
    try congruence; try reflexivity; try tauto; exfalso; lra.
Qed.

(** C5 fails as stated: a flight quoted at zero in both snapshots has a
    NaN percentage and ends with no label at all, not with a bucket named
    "Undefined". *)
Lemma zero_price_record_is_unlabelled :
  exists r,
    compare_snapshots free_dir "20250617" "20250618" = inr [r] /\
    price_eur_old r = 0 /\
    change_pct r = NaN /\
    change_type r = None /\
    change_type r <> Some "Undefined".
Proof.
  eexists. split; [reflexivity|]. cbn. repeat split. discriminate.
Qed.

(** ** Groups *)

Lemma in_groupby {A} (by_ : A -> option string) (df : list A) k g :
  In (k, g) (groupby by_ df) <->
  In (Some k) (map by_ df)
  /\ g = filter (fun r => pd.cell_is (by_ r) k) df.
Proof.
  unfold groupby. rewrite in_map_iff. split.
  - intros (k' & E & Hk). inversion E; subst. split; [|reflexivity].
    apply (Permutation_in _ (Permutation_sym (StringSort.Permuted_sort _)))
      in Hk.
    apply nodup_In in Hk. now apply in_dropna.
  - intros [Hk ->]. exists k. split; [reflexivity|].
    apply (Permutation_in _ (StringSort.Permuted_sort _)).
    apply nodup_In. now apply in_dropna.
Qed.

Lemma indicator_sum (x : string) (keys : list string) :
  NoDup keys -> In x keys ->
  list_sum (map (fun k => if x =? k then 1%nat else 0%nat) keys) = 1%nat.
Proof.
  induction 1 as [|k keys Hk Hnd IH]; simpl; [tauto|].
  intros [->|Hin].
  - rewrite String.eqb_refl. f_equal.
    clear IH Hnd. induction keys as [|k' keys IH]; simpl; [reflexivity|].
    destruct (String.eqb_spec x k') as [->|_].
    + exfalso. apply Hk. simpl. auto.
    + apply IH. intro Hx. apply Hk. simpl. auto.
  - destruct (String.eqb_spec x k) as [->|_]; [contradiction|].
    simpl. auto.
Qed.

Lemma cell_indicator_sum (c : option string) (keys : list string) :
  NoDup keys -> (forall k, c = Some k -> In k keys) ->
  list_sum (map (fun k => if pd.cell_is c k then 1%nat else 0%nat) keys)
  = if pd.notna c then 1%nat else 0%nat.
Proof.
  intros Hnd Hin. destruct c as [x|]; simpl.
  - apply indicator_sum; auto.
  - clear. induction keys; simpl; auto.
Qed.

(** Every row with a key belongs to exactly one group, and a row without
    one to none. *)
Lemma group_sizes_sum {A} (by_ : A -> option string) (df : list A) keys :
  NoDup keys ->
  (forall r k, In r df -> by_ r = Some k -> In k keys) ->
  list_sum
    (map (fun k => List.length (filter (fun r => pd.cell_is (by_ r) k) df))
       keys)
  = List.length (filter (fun r => pd.notna (by_ r)) df).
Proof.
  intros Hnd. induction df as [|r df IH]; intro Hcov.
  - clear. induction keys; simpl; auto.
  - assert (E : list_sum
                  (map (fun k => List.length
                                   (filter (fun r => pd.cell_is (by_ r) k)
                                      (r :: df)))
                     keys)
                = (list_sum
                     (map (fun k => if pd.cell_is (by_ r) k then 1 else 0)
                        keys)
                   + list_sum
                       (map (fun k => List.length
                                        (filter
                                           (fun r => pd.cell_is (by_ r) k)
                                           df))
                          keys))%nat).
    { clear. induction keys as [|k keys IHk]; [reflexivity|].
      rewrite !map_cons.
      change (list_sum ?l) with (fold_right Nat.add 0%nat l) in *.
      cbn [fold_right]. rewrite IHk. cbn [filter].
      destruct (pd.cell_is (by_ r) k); simpl; lia. }
    rewrite E, IH by (intros r' k Hr'; apply Hcov; simpl; auto).
    rewrite (cell_indicator_sum (by_ r) keys Hnd)
      by (intros k; apply Hcov; simpl; auto).
    cbn [filter]. destruct (pd.notna (by_ r)); reflexivity.
Qed.

Lemma groupby_sizes_sum {A} (by_ : A -> option string) (df : list A) :
  list_sum (map (fun kg => List.length (snd kg)) (groupby by_ df))
  = List.length (filter (fun r => pd.notna (by_ r)) df).
Proof.
  unfold groupby. rewrite map_map. simpl.
  rewrite <- (group_sizes_sum by_ df
                (nodup string_dec (pd.dropna (map by_ df)))).
  - apply Permutation_list_sum, Permutation_map, Permutation_sym,
      StringSort.Permuted_sort.
  - apply NoDup_nodup.
  - intros r k Hr E. apply nodup_In, in_dropna. rewrite <- E.
    now apply in_map.
Qed.

Lemma filter_all {A} (f : A -> bool) (l : list A) :
  List.length (filter f l) = List.length l <->
  forall x, In x l -> f x = true.
Proof.
  induction l as [|a l IH]; simpl; [tauto|].
  pose proof (filter_length_le f l) as Hle.
  destruct (f a) eqn:E; simpl.
  - split.
    + intros H x [<-|Hx]; [exact E|]. apply IH; [lia|exact Hx].
    + intro H. f_equal. apply IH. auto.
  - split; [lia|]. intro H. specialize (H a (or_introl eq_refl)).
    congruence.
Qed.

Lemma valid_fin {A} (f : A -> Q) (g : list A) :
  agg.valid (map (fun r => Fin (f r)) g) = map (fun r => Fin (f r)) g.
Proof.
  unfold agg.valid. induction g as [|r g IH]; simpl; [reflexivity|].
  now rewrite IH.
Qed.

Lemma count_price_diff (g : list Delta) :
  agg.count (col_price_diff g) = List.length g.
Proof.
  unfold agg.count, col_price_diff. now rewrite valid_fin, length_map.
Qed.

Section Analyses.

Context `{np : Numpy}.

Lemma analyze_ota_perm df :
  Permutation (analyze_ota_changes df) (ota_analysis df).
Proof. apply sort_values_perm. Qed.

Lemma analyze_route_perm df :
  Permutation (analyze_route_changes df) (route_analysis df).
Proof. apply sort_values_perm. Qed.

Lemma in_analyze_ota df row :
  In row (analyze_ota_changes df) <->
  exists k, In (Some k) (map (fun r => gate (key r)) df) /\
    row = ota_row (k, filter (fun r => pd.cell_is (gate (key r)) k) df).
Proof.
  split.
  - intro Hin. apply (Permutation_in _ (analyze_ota_perm df)) in Hin.
    apply in_map_iff in Hin. destruct Hin as ([k g] & <- & Hkg).
    apply in_groupby in Hkg. destruct Hkg as [Hk ->]. eauto.
  - intros (k & Hk & ->).
    apply (Permutation_in _ (Permutation_sym (analyze_ota_perm df))).
    apply in_map, in_groupby. auto.
Qed.

Lemma in_analyze_route df row :
  In row (analyze_route_changes df) <->
  exists k, In (Some k) (map route df) /\
    row = route_row (k, filter (fun r => pd.cell_is (route r) k) df).
Proof.
  split.
  - intro Hin. apply (Permutation_in _ (analyze_route_perm df)) in Hin.
    apply in_map_iff in Hin. destruct Hin as ([k g] & <- & Hkg).
    apply in_groupby in Hkg. destruct Hkg as [Hk ->]. eauto.
  - intros (k & Hk & ->).
    apply (Permutation_in _ (Permutation_sym (analyze_route_perm df))).
    apply in_map, in_groupby. auto.
Qed.

(** C9, as the program has it.  The flight counts of the per-agent table
    add up to the number of records whose agent cell is present, and
    those of the per-route table to the number of records whose route is
    present: [groupby] drops the records with a missing key.  Either sum
    is at most the number of records, and equals it exactly when no
    record misses that key.  (The price cells are numbers, so [count]
    skips none of them.) *)
Theorem total_flights_sum (df : list Delta) :
  let agents := list_sum (map (fun row => total_flights (ota_stats row))
                            (analyze_ota_changes df)) in
  let routes := list_sum (map (fun row => total_flights (route_stats row))
                            (analyze_route_changes df)) in
  agents = List.length (filter (fun r => pd.notna (gate (key r))) df) /\
  routes = List.length (filter (fun r => pd.notna (route r)) df) /\
  (agents <= List.length df)%nat /\
  (routes <= List.length df)%nat /\
  (agents = List.length df <->
   forall r, In r df -> gate (key r) <> None) /\
  (routes = List.length df <->
   forall r, In r df -> route r <> None).
Proof.
  cbv zeta.
  assert (Ea : list_sum (map (fun row => total_flights (ota_stats row))
                           (analyze_ota_changes df))
               = List.length
                   (filter (fun r => pd.notna (gate (key r))) df)).
  { rewrite (Permutation_list_sum
               (Permutation_map _ (analyze_ota_perm df))).
    unfold ota_analysis. rewrite map_map.
    rewrite <- (groupby_sizes_sum (fun r => gate (key r)) df).
    f_equal. apply map_ext. intros [k g]. simpl.
    apply count_price_diff. }
  assert (Er : list_sum (map (fun row => total_flights (route_stats row))
                           (analyze_route_changes df))
               = List.length (filter (fun r => pd.notna (route r)) df)).
  { rewrite (Permutation_list_sum
               (Permutation_map _ (analyze_route_perm df))).
    unfold route_analysis. rewrite map_map.
    rewrite <- (groupby_sizes_sum route df).
    f_equal. apply map_ext. intros [k g]. simpl.
    apply count_price_diff. }
  rewrite Ea, Er.
  split; [reflexivity|]. split; [reflexivity|].
  split; [apply filter_length_le|]. split; [apply filter_length_le|].
  split; rewrite filter_all; split; intros H r Hr; specialize (H r Hr).
  - destruct (gate (key r)); [discriminate|discriminate].
  - destruct (gate (key r)); [reflexivity|contradiction].
  - destruct (route r); [discriminate|discriminate].
  - destruct (route r); [reflexivity|contradiction].
Qed.

End Analyses.

(** ** The statistics of a group *)

Lemma Qabs_le_1 (q : Q) :
  Qle_bool (Qabs q) 1 = Qle_bool (-1) q && Qle_bool q 1.
Proof.
  apply eq_true_iff_eq.
  rewrite andb_true_iff, !Qle_bool_iff, Qabs_Qle_condition.
  split; intros [L U]; split; lra.
Qed.

Lemma strategy_fin (q : Q) :
  strategy (Fin q)
  = if fl.Qltb 5 q then "Aggressive Increase"
    else if fl.Qltb 1 q then "Moderate Increase"
    else if Qle_bool (-1) q && Qle_bool q 1 then "Stable"
    else if fl.Qltb (-5) q then "Moderate Decrease"
    else "Aggressive Decrease".
Proof. rewrite <- Qabs_le_1. reflexivity. Qed.

Lemma strategy_fin_labels (q : Q) :
  (strategy (Fin q) = "Aggressive Increase" <-> 5 < q) /\
  (strategy (Fin q) = "Moderate Increase" <-> 1 < q /\ q <= 5) /\
  (strategy (Fin q) = "Stable" <-> -1 <= q /\ q <= 1) /\
  (strategy (Fin q) = "Moderate Decrease" <-> -5 < q /\ q < -1) /\
  (strategy (Fin q) = "Aggressive Decrease" <-> q <= -5).
Proof.
  rewrite strategy_fin.
  destruct (fl.Qltb 5 q) eqn:F1, (fl.Qltb 1 q) eqn:F2,
    (Qle_bool (-1) q) eqn:F3, (Qle_bool q 1) eqn:F5,
    (fl.Qltb (-5) q) eqn:F4; by_bounds.
Qed.

(** Every comparison with NaN is false, so the lambda falls through to
    its last branch. *)
Lemma strategy_nan : strategy NaN = "Aggressive Decrease".
Proof. reflexivity. Qed.

Lemma std_single (np : Numpy) (g : list Delta) :
  List.length g = 1%nat -> agg.std (col_price_diff g) = NaN.
Proof.
  intro Hlen. unfold agg.std, agg.var.
  rewrite count_price_diff, Hlen. reflexivity.
Qed.

Lemma round2_two_decimals (x : float) : two_decimals (fl.round2 x).
Proof. destruct x; simpl; eauto. Qed.





Lemma relabel_cols (f : Delta -> option string) (g : list Delta) :
  col_price_diff (map (relabel f) g) = col_price_diff g /\
  col_change_pct (map (relabel f) g) = col_change_pct g /\
  col_price_eur_new (map (relabel f) g) = col_price_eur_new g /\
  col_gate (map (relabel f) g) = col_gate g.
Proof.
  unfold col_price_diff, col_change_pct, col_price_eur_new, col_gate.
  rewrite !map_map. repeat split; apply map_ext; reflexivity.
Qed.

Lemma filter_map_comm {A B} (f : A -> B) (p : B -> bool) (l : list A) :
  filter p (map f l) = map f (filter (fun x => p (f x)) l).
Proof.
  induction l as [|x l IH]; simpl; [reflexivity|].
  destruct (p (f x)); simpl; now rewrite IH.
Qed.

Section Claims.

Context `{np : Numpy}.

Lemma ota_row_relabel f k g :
  ota_row (k, map (relabel f) g) = ota_row (k, g).
Proof.
  unfold ota_row, agg_stats.
  destruct (relabel_cols f g) as (-> & -> & -> & _). reflexivity.
Qed.

Lemma ota_analysis_relabel f df :
  ota_analysis (map (relabel f) df) = ota_analysis df.
Proof.
  unfold ota_analysis, groupby. rewrite !map_map.
  replace (map (fun x => gate (key (relabel f x))) df)
    with (map (fun r => gate (key r)) df) by (apply map_ext; reflexivity).
  apply map_ext. intro k.
  rewrite filter_map_comm. simpl. apply ota_row_relabel.
Qed.

(** C3, as the program has it.  The label of an agent is a function of
    the group's reported mean percentage x, the mean rounded to two
    decimals: Aggressive Increase iff x > 5, Moderate Increase iff
    1 < x <= 5, Stable iff |x| <= 1, Moderate Decrease iff -5 < x < -1,
    Aggressive Decrease iff x <= -5.  A mean of exactly -5 is an
    Aggressive Decrease.  The labels of the records play no part. *)
Theorem pricing_strategy_of_mean (df : list Delta) row q :
  In row (analyze_ota_changes df) ->
  avg_change_pct (ota_stats row) = Fin q ->
  pricing_strategy row = strategy (avg_change_pct (ota_stats row)) /\
  (pricing_strategy row = "Aggressive Increase" <-> 5 < q) /\
  (pricing_strategy row = "Moderate Increase" <-> 1 < q /\ q <= 5) /\
  (pricing_strategy row = "Stable" <-> -1 <= q /\ q <= 1) /\
  (pricing_strategy row = "Moderate Decrease" <-> -5 < q /\ q < -1) /\
  (pricing_strategy row = "Aggressive Decrease" <-> q <= -5) /\
  (q == -5 -> pricing_strategy row = "Aggressive Decrease") /\
  (forall f, analyze_ota_changes (map (relabel f) df)
             = analyze_ota_changes df).
Proof.
  intros Hin Hq. apply in_analyze_ota in Hin.
  destruct Hin as (k & _ & ->).
  change (pricing_strategy (ota_row (k, ?g)))
    with (strategy (avg_change_pct (ota_stats (ota_row (k, g))))).
  rewrite Hq.
  pose proof (strategy_fin_labels q) as (S1 & S2 & S3 & S4 & S5).
  split; [reflexivity|]. do 5 (split; [assumption|]). split.
  - intro E. apply S5. lra.
  - intro f. unfold analyze_ota_changes.
    now rewrite ota_analysis_relabel.
Qed.

(** C7, as the program has it.  For a group with a single record the
    reported standard deviation of [price_diff] is missing (NaN): the
    sample deviation is undefined there and nothing replaces it. *)
Theorem single_record_std_is_nan (df : list Delta) :
  (forall row,
      In row (analyze_ota_changes df) ->
      List.length (filter (fun r => pd.cell_is (gate (key r)) (ota row)) df)
      = 1%nat ->
      total_flights (ota_stats row) = 1%nat /\
      std_price_diff (ota_stats row) = NaN) /\
  (forall row,
      In row (analyze_route_changes df) ->
      List.length (filter (fun r => pd.cell_is (route r) (route_name row)) df)
      = 1%nat ->
      total_flights (route_stats row) = 1%nat /\
      std_price_diff (route_stats row) = NaN).
Proof.
  split; intros row Hin Hlen.
  - apply in_analyze_ota in Hin. destruct Hin as (k & _ & ->).
    simpl in *. rewrite count_price_diff, (std_single _ _ Hlen). auto.
  - apply in_analyze_route in Hin. destruct Hin as (k & _ & ->).
    simpl in *. rewrite count_price_diff, (std_single _ _ Hlen). auto.
Qed.

(** C8, as the program has it.  Both tables hold the rows of all groups,
    ordered by mean percentage, descending, the groups without a mean
    last.  The order of groups with equal means is left to the sort. *)
Theorem summaries_sorted_descending (df : list Delta) :
  Permutation (analyze_ota_changes df) (ota_analysis df) /\
  StronglySorted
    (fun r s => descending (avg_change_pct (ota_stats r))
                           (avg_change_pct (ota_stats s)))
    (analyze_ota_changes df) /\
  Permutation (analyze_route_changes df) (route_analysis df) /\
  StronglySorted
    (fun r s => descending (avg_change_pct (route_stats r))
                           (avg_change_pct (route_stats s)))
    (analyze_route_changes df).
Proof.
  split; [apply analyze_ota_perm|].
  split; [apply sort_values_descending|].
  split; [apply analyze_route_perm|].
  apply sort_values_descending.
Qed.


End Claims.

(** ** Snapshots without a common flight *)

Lemma share_no_key_spec older newer :
  share_no_key older newer = true <->
  forall n o, In n newer -> In o older -> obs_key n <> obs_key o.
Proof.
  unfold share_no_key. rewrite forallb_forall. split.
  - intros Hall n o Hn Ho E. specialize (Hall n Hn).
    rewrite forallb_forall in Hall. specialize (Hall o Ho).
    apply key_eqb_eq in E. rewrite E in Hall. discriminate.
  - intros Hall n Hn. apply forallb_forall. intros o Ho.
    destruct (key_eqb (obs_key n) (obs_key o)) eqn:E; [|reflexivity].
    apply key_eqb_eq in E. exfalso. eapply Hall; eassumption.
Qed.

Lemma compare_frames_disjoint older newer :
  (forall n o, In n newer -> In o older -> obs_key n <> obs_key o) ->
  compare_frames older newer = [].
Proof.
  intro Hdis. destruct (compare_frames older newer) as [|r l] eqn:E;
    [reflexivity|].
  assert (Hr : In r (compare_frames older newer))
    by (rewrite E; simpl; auto).
  apply in_compare_frames in Hr.
  destruct Hr as (n & o & Hn & Ho & Hk & _).
  exfalso. eapply Hdis; eassumption.
Qed.

(** C6.  Two non-empty snapshots without a common flight key give an
    empty delta table, returned normally, and both analyses of that empty
    table return an empty table, whose counts add up to zero. *)
Theorem disjoint_snapshots_empty_tables {np : Numpy}
    snapshots_dir date1 date2 older newer :
  snapshots_dir date1 = Some older ->
  snapshots_dir date2 = Some newer ->
  older <> [] ->
  newer <> [] ->
  (forall n o, In n newer -> In o older -> obs_key n <> obs_key o) ->
  exists deltas,
    compare_snapshots snapshots_dir date1 date2 = inr deltas /\
    deltas = [] /\
    analyze_ota_changes deltas = [] /\
    analyze_route_changes deltas = [] /\
    list_sum (map (fun row => total_flights (ota_stats row))
                (analyze_ota_changes deltas)) = 0%nat /\
    list_sum (map (fun row => total_flights (route_stats row))
                (analyze_route_changes deltas)) = 0%nat.
Proof.
  intros H1 H2 _ _ Hdis. exists []. split.
  - rewrite (compare_snapshots_loaded _ _ _ _ _ H1 H2).
    now rewrite compare_frames_disjoint.
  - assert (Eo : analyze_ota_changes [] = [])
      by (apply Permutation_nil, Permutation_sym, analyze_ota_perm).
    assert (Er : analyze_route_changes [] = [])
      by (apply Permutation_nil, Permutation_sym, analyze_route_perm).
    rewrite Eo, Er. auto.
Qed.

(** ** The claims on concrete snapshots *)

Lemma compare_snapshots_inner_join_witness :
  fanout_dir "20250617"
  = Some [mkObs bcn_mad_x 80; mkObs bcn_mad_x 85] /\
  fanout_dir "20250618"
  = Some [mkObs bcn_mad_x 84; mkObs ist_nrt_y 500; mkObs bcn_mad_x 90] /\
  exists deltas,
    compare_snapshots fanout_dir "20250617" "20250618" = inr deltas /\
    deltas_with_key bcn_mad_x deltas = 4%nat /\
    deltas_with_key ist_nrt_y deltas = 0%nat.
Proof.
  split; [reflexivity|]. split; [reflexivity|].
  destruct (compare_snapshots_inner_join fanout_dir "20250617" "20250618"
              _ _ eq_refl eq_refl)
    as (deltas & Hc & _ & _ & _ & Hcount).
  exists deltas. split; [exact Hc|].
  rewrite !Hcount. split; reflexivity.
Defined.

Lemma change_type_buckets_witness :
  compare_snapshots rising_dir "20250617" "20250618"
  = inr [rising_delta] /\
  In rising_delta [rising_delta] /\
  change_pct rising_delta = Fin (400 # 80) /\
  400 # 80 == 5 /\
  change_type rising_delta = Some "Minor Increase (1-5%)".
Proof.
  assert (Hc : compare_snapshots rising_dir "20250617" "20250618"
               = inr [rising_delta]) by reflexivity.
  assert (Hin : In rising_delta [rising_delta]) by (simpl; auto).
  assert (Hq : change_pct rising_delta = Fin (400 # 80)) by reflexivity.
  assert (H5 : 400 # 80 == 5) by reflexivity.
  do 4 (split; [assumption|]).
  exact (proj1 (proj2 (proj2 (proj2 (proj2 (proj2 (proj2
           (change_type_buckets _ _ _ _ _ _ Hc Hin Hq))))))) H5).
Defined.

Lemma undefined_change_pct_has_no_label_witness :
  free_dir "20250617" = Some [mkObs bcn_mad_x 0] /\
  free_dir "20250618" = Some [mkObs bcn_mad_x 0] /\
  exists deltas,
    compare_snapshots free_dir "20250617" "20250618" = inr deltas /\
    forall r, In r deltas -> change_pct r = NaN -> change_type r = None.
Proof.
  split; [reflexivity|]. split; [reflexivity|].
  destruct (undefined_change_pct_has_no_label free_dir
              "20250617" "20250618" _ _ eq_refl eq_refl)
    as (deltas & Hc & Hall).
  exists deltas. split; [exact Hc|].
  intros r Hr. exact (proj1 (proj2 (Hall r Hr))).
Defined.

Lemma disjoint_snapshots_empty_tables_witness :
  disjoint_dir "20250617" = Some [mkObs ist_nrt_y 500] /\
  disjoint_dir "20250618" = Some [mkObs bcn_mad_x 84] /\
  [mkObs ist_nrt_y 500] <> [] /\
  [mkObs bcn_mad_x 84] <> [] /\
  share_no_key [mkObs ist_nrt_y 500] [mkObs bcn_mad_x 84] = true /\
  exists deltas,
    compare_snapshots disjoint_dir "20250617" "20250618" = inr deltas /\
    deltas = [] /\
    analyze_ota_changes (np := stable_numpy) deltas = [] /\
    analyze_route_changes (np := stable_numpy) deltas = [].
Proof.
  assert (Ho : [mkObs ist_nrt_y 500] <> []) by discriminate.
  assert (Hn : [mkObs bcn_mad_x 84] <> []) by discriminate.
  assert (Hs : share_no_key [mkObs ist_nrt_y 500] [mkObs bcn_mad_x 84]
               = true) by reflexivity.
  split; [reflexivity|]. split; [reflexivity|].
  do 3 (split; [assumption|]).
  destruct (disjoint_snapshots_empty_tables (np := stable_numpy)
              disjoint_dir "20250617" "20250618" _ _ eq_refl eq_refl Ho Hn
              (proj1 (share_no_key_spec _ _) Hs))
    as (deltas & Hc & He & Ha & Hr & _).
  exists deltas. auto.
Defined.

(** C3 fails as stated: a single flight going from 100 to 95 euros gives
    its agent a mean of exactly -5 percent, and the label is Aggressive
    Decrease, not Moderate Decrease. *)
Lemma mean_minus_five_is_aggressive_decrease :
  compare_snapshots falling_dir "20250617" "20250618"
  = inr falling_deltas /\
  map (fun row => (ota row, avg_change_pct (ota_stats row),
                   pricing_strategy row))
    (analyze_ota_changes (np := stable_numpy) falling_deltas)
  = [("AgentX", Fin (-5.00), "Aggressive Decrease")] /\
  -5.00 == -5 /\
  "Aggressive Decrease" <> "Moderate Decrease".
Proof.
  split; [reflexivity|].
  split; [reflexivity|]. split; [reflexivity | discriminate].
Qed.

Lemma pricing_strategy_of_mean_witness :
  In (ota_row (np := stable_numpy) ("AgentX", falling_deltas))
    (analyze_ota_changes (np := stable_numpy) falling_deltas) /\
  avg_change_pct
    (ota_stats (ota_row (np := stable_numpy) ("AgentX", falling_deltas)))
  = Fin (-5.00) /\
  -5.00 == -5 /\
  pricing_strategy (ota_row (np := stable_numpy) ("AgentX", falling_deltas))
  = "Aggressive Decrease".
Proof.
  set (row := ota_row (np := stable_numpy) ("AgentX", falling_deltas)).
  assert (Hin : In row
                  (analyze_ota_changes (np := stable_numpy) falling_deltas))
    by (left; reflexivity).
  assert (Hq : avg_change_pct (ota_stats row) = Fin (-5.00))
    by reflexivity.
  assert (H5 : -5.00 == -5) by reflexivity.
  do 3 (split; [assumption|]).
  exact (proj1 (proj2 (proj2 (proj2 (proj2 (proj2 (proj2
           (pricing_strategy_of_mean falling_deltas row _ Hin Hq)))))))
           H5).
Defined.

(** C7 fails as stated: with one flight in the table, the only agent and
    the only route have one record each and a missing standard deviation,
    not zero. *)
Lemma single_record_std_is_not_zero :
  compare_snapshots rising_dir "20250617" "20250618"
  = inr [rising_delta] /\
  map (fun row => (total_flights (ota_stats row),
                   std_price_diff (ota_stats row)))
    (analyze_ota_changes (np := stable_numpy) [rising_delta])
  = [(1%nat, NaN)] /\
  map (fun row => (total_flights (route_stats row),
                   std_price_diff (route_stats row)))
    (analyze_route_changes (np := stable_numpy) [rising_delta])
  = [(1%nat, NaN)] /\
  NaN <> Fin 0.
Proof.
  split; [reflexivity|].
  split; [reflexivity|]. split; [reflexivity | discriminate].
Qed.

Lemma single_record_std_is_nan_witness :
  In (ota_row (np := stable_numpy) ("AgentX", [rising_delta]))
    (analyze_ota_changes (np := stable_numpy) [rising_delta]) /\
  List.length
    (filter (fun r => pd.cell_is (gate (key r)) "AgentX") [rising_delta])
  = 1%nat /\
  std_price_diff
    (ota_stats (ota_row (np := stable_numpy) ("AgentX", [rising_delta])))
  = NaN.
Proof.
  set (row := ota_row (np := stable_numpy) ("AgentX", [rising_delta])).
  assert (Hin : In row
                  (analyze_ota_changes (np := stable_numpy) [rising_delta]))
    by (left; reflexivity).
  assert (Hlen : List.length
                   (filter (fun r => pd.cell_is (gate (key r)) (ota row))
                      [rising_delta]) = 1%nat)
    by reflexivity.
  split; [exact Hin|]. split; [exact Hlen|].
  exact (proj2 (proj1 (single_record_std_is_nan [rising_delta])
                  row Hin Hlen)).
Defined.

(** C8 fails as stated: the program sorts on the mean alone, with the
    default sort, which is not stable.  Of four agents, two keep their
    price and two raise it by ten percent.  The network of the vectorised
    sort exchanges the two pairs as wholes and leaves equal keys where
    they are, so that each tied pair comes out in descending order of
    the names; the stable kernel returns each pair in ascending order.
    Two tied agents alone come out in ascending order under both. *)
Lemma equal_means_in_descending_key_order :
  exists deltas,
    compare_snapshots tied_dir "20250617" "20250618" = inr deltas /\
    map (fun row => (ota row, avg_change_pct (ota_stats row)))
      (analyze_ota_changes (np := network_numpy) deltas)
    = [("AgentD", Fin 10.00); ("AgentC", Fin 10.00);
       ("AgentB", Fin 0.00); ("AgentA", Fin 0.00)] /\
    map (fun row => (ota row, avg_change_pct (ota_stats row)))
      (analyze_ota_changes (np := stable_numpy) deltas)
    = [("AgentC", Fin 10.00); ("AgentD", Fin 10.00);
       ("AgentA", Fin 0.00); ("AgentB", Fin 0.00)] /\
    String.ltb "AgentC" "AgentD" = true /\
    String.ltb "AgentA" "AgentB" = true /\
    exists steady,
      compare_snapshots steady_dir "20250617" "20250618" = inr steady /\
      map (fun row => (ota row, avg_change_pct (ota_stats row)))
        (analyze_ota_changes (np := network_numpy) steady)
      = [("AgentX", Fin 0.00); ("AgentY", Fin 0.00)].
Proof.
  eexists. split; [reflexivity|].
  split; [reflexivity|]. split; [reflexivity|].
  split; [reflexivity|]. split; [reflexivity|].
  eexists. split; reflexivity.
Qed.

(** C9 fails as stated: [read_csv] reads the agent text [NA] as a missing
    value, and [groupby] drops the records with a missing key.  The one
    record of the table is counted by no agent, the per-agent table is
    empty and its counts add up to zero; the route of the record counts
    one flight and no agent. *)
Lemma missing_agent_record_is_not_counted :
  exists deltas,
    compare_snapshots unnamed_dir "20250617" "20250618" = inr deltas /\
    List.length deltas = 1%nat /\
    map (fun r => gate (key r)) deltas = [None] /\
    analyze_ota_changes (np := stable_numpy) deltas = [] /\
    list_sum (map (fun row => total_flights (ota_stats row))
                (analyze_ota_changes (np := stable_numpy) deltas)) = 0%nat /\
    map (fun row => (route_name row, total_flights (route_stats row),
                     num_otas row))
      (analyze_route_changes (np := stable_numpy) deltas)
    = [("BCN → MAD", 1%nat, 0%nat)].
Proof.
  eexists. split; [reflexivity|].
  split; [reflexivity|]. split; [reflexivity|].
  split; [reflexivity|]. split; reflexivity.
Qed.


(** * Further properties of the comparison *)

(** ** Missing snapshots *)

(** X1.  [compare_snapshots] loads the earlier snapshot first: it raises
    [FileNotFoundError] for [date1] when that snapshot is missing, whatever
    the state of the other one, for [date2] when only that one is missing,
    and it returns a table exactly when both snapshots exist. *)
Theorem compare_snapshots_missing_snapshot snapshots_dir date1 date2 :
  (forall d,
      compare_snapshots snapshots_dir date1 date2
      = inl (FileNotFoundError d) <->
      (snapshots_dir date1 = None /\ d = date1) \/
      (snapshots_dir date1 <> None /\ snapshots_dir date2 = None
       /\ d = date2)) /\
  ((exists deltas,
       compare_snapshots snapshots_dir date1 date2 = inr deltas) <->
   snapshots_dir date1 <> None /\ snapshots_dir date2 <> None).
Proof.
  unfold compare_snapshots, load_snapshot.
  destruct (snapshots_dir date1) as [older|];
    destruct (snapshots_dir date2) as [newer|]; simpl; split;
    try (intro d; split;
         [ intro E; inversion E; subst; tauto || (right; repeat split;
                                                  congruence)
         | intros [[E ->]|(E1 & E2 & ->)]; congruence ]).
  - split; [intros _; split; congruence | eauto].
  - split; [intros [? E]; discriminate | intros [_ E]; congruence].
  - split; [intros [? E]; discriminate | intros [E _]; congruence].
  - split; [intros [? E]; discriminate | intros [E _]; congruence].
Qed.

(** ** Exchanging the two snapshots *)

Lemma flat_map_app_perm {A B} (g1 g2 : A -> list B) (l : list A) :
  Permutation (flat_map (fun y => g1 y ++ g2 y) l)
    (flat_map g1 l ++ flat_map g2 l).
Proof.
  induction l as [|y l IH]; simpl; [constructor|].
  rewrite <- !app_assoc. apply Permutation_app_head.
  etransitivity; [apply Permutation_app_head, IH|].
  rewrite !app_assoc. apply Permutation_app_tail, Permutation_app_comm.
Qed.

(** A join can be enumerated from either side. *)
Lemma join_swap {A B C} (f : A -> B -> C) (p : A -> B -> bool)
    (l1 : list A) (l2 : list B) :
  Permutation
    (flat_map (fun x => map (f x) (filter (p x) l2)) l1)
    (flat_map (fun y => map (fun x => f x y) (filter (fun x => p x y) l1))
       l2).
Proof.
  induction l1 as [|x l1 IH]; simpl.
  - induction l2; simpl; auto.
  - etransitivity; [apply Permutation_app_head, IH|].
    etransitivity; [|apply Permutation_sym, Permutation_refl].
    assert (E : flat_map
                  (fun y => map (fun x0 => f x0 y)
                              (if p x y then x :: filter (fun x0 => p x0 y) l1
                               else filter (fun x0 => p x0 y) l1)) l2
                = flat_map
                    (fun y => (if p x y then [f x y] else [])
                              ++ map (fun x0 => f x0 y)
                                   (filter (fun x0 => p x0 y) l1)) l2).
    { apply flat_map_ext. intro y. destruct (p x y); reflexivity. }
    rewrite E. clear E.
    etransitivity; [|apply Permutation_sym, flat_map_app_perm].
    apply Permutation_app_tail.
    clear. induction l2 as [|y l2 IH]; simpl; [constructor|].
    destruct (p x y); simpl; [constructor|]; exact IH.
Qed.

Lemma map_filter_ext {A B} (g g' : A -> B) (q q' : A -> bool) l :
  (forall x, q x = q' x) ->
  (forall x, q x = true -> g x = g' x) ->
  map g (filter q l) = map g' (filter q' l).
Proof.
  intros Hq Hg. induction l as [|x l IH]; simpl; [reflexivity|].
  rewrite <- Hq. destruct (q x) eqn:E; simpl; [|exact IH].
  now rewrite IH, (Hg x E).
Qed.

Lemma key_eqb_sym (a b : FlightKey) : key_eqb a b = key_eqb b a.
Proof.
  apply eq_true_iff_eq. rewrite !key_eqb_eq. split; congruence.
Qed.

Lemma map_flat_map' {A B C} (g : B -> C) (h : A -> list B) (l : list A) :
  map g (flat_map h l) = flat_map (fun x => map g (h x)) l.
Proof.
  induction l as [|x l IH]; simpl; [reflexivity|].
  now rewrite map_app, IH.
Qed.

Lemma compare_frames_swap older newer :
  Permutation (map prices_swapped (compare_frames newer older))
    (map prices (compare_frames older newer)).
Proof.
  set (f := fun n o : Observation => (obs_key n, price_eur n, price_eur o)).
  set (p := fun n o : Observation => key_eqb (obs_key n) (obs_key o)).
  assert (E1 : map prices (compare_frames older newer)
               = flat_map (fun n => map (f n) (filter (p n) older)) newer).
  { unfold compare_frames, pd.merge. rewrite map_flat_map'.
    apply flat_map_ext. intro n. now rewrite map_map. }
  assert (E2 : map prices_swapped (compare_frames newer older)
               = flat_map
                   (fun o => map (fun n => f n o)
                               (filter (fun n => p n o) newer)) older).
  { unfold compare_frames, pd.merge. rewrite map_flat_map'.
    apply flat_map_ext. intro o. rewrite map_map.
    apply map_filter_ext.
    - intro n. apply key_eqb_sym.
    - intros n E. apply key_eqb_eq in E. unfold prices_swapped, f.
      simpl. now rewrite E. }
  rewrite E1, E2. apply Permutation_sym, join_swap.
Qed.

(** X2.  Comparing the two snapshots the other way round matches the same
    pairs of rows: the table has the same records with the old and the new
    price exchanged, up to the order of the rows, hence as many of them. *)
Theorem compare_snapshots_swap snapshots_dir date1 date2 deltas :
  compare_snapshots snapshots_dir date1 date2 = inr deltas ->
  exists back,
    compare_snapshots snapshots_dir date2 date1 = inr back /\
    Permutation (map prices_swapped back) (map prices deltas) /\
    List.length back = List.length deltas.
Proof.
  intro H. apply compare_snapshots_inv in H.
  destruct H as (older & newer & H1 & H2 & ->).
  exists (compare_frames newer older).
  split; [now apply compare_snapshots_loaded|].
  pose proof (compare_frames_swap older newer) as P.
  split; [exact P|].
  apply Permutation_length in P. now rewrite !length_map in P.
Qed.

Lemma compare_snapshots_swap_witness :
  compare_snapshots rising_dir "20250617" "20250618"
  = inr [rising_delta] /\
  exists back,
    compare_snapshots rising_dir "20250618" "20250617" = inr back /\
    List.length back = 1%nat.
Proof.
  assert (Hc : compare_snapshots rising_dir "20250617" "20250618"
               = inr [rising_delta]) by reflexivity.
  split; [exact Hc|].
  destruct (compare_snapshots_swap _ _ _ _ Hc) as (back & Hb & _ & Hl).
  exists back. split; [exact Hb | exact Hl].
Defined.

(** ** The labels in terms of the two prices *)

Lemma pct_le (d o c : Q) :
  0 < o -> (d / o * 100 <= c <-> d * 100 <= c * o).
Proof.
  intro Ho.
  assert (E : d / o * 100 * o == d * 100) by (field; lra).
  rewrite <- (Qmult_le_r _ _ o Ho), E. reflexivity.
Qed.

Lemma pct_lt (d o c : Q) :
  0 < o -> (c < d / o * 100 <-> c * o < d * 100).
Proof.
  intro Ho.
  assert (E : d / o * 100 * o == d * 100) by (field; lra).
  rewrite <- (Qmult_lt_r _ _ o Ho), E. reflexivity.
Qed.

(** X3.  The label of a record agrees with the direction of the price.
    For a record with a positive old price and a new price that is not
    negative, a Drop label means that the new price is below the old
    one, an Increase label that it is above, an unchanged price is
    Stable, and the record always has one of the five labels. *)
Theorem change_type_follows_direction
    snapshots_dir date1 date2 deltas r :
  compare_snapshots snapshots_dir date1 date2 = inr deltas ->
  In r deltas ->
  0 < price_eur_old r ->
  0 <= price_eur_new r ->
  let old := price_eur_old r in
  let new := price_eur_new r in
  (change_type r = Some "Major Drop (>5%)" \/
   change_type r = Some "Minor Drop (1-5%)" -> new < old) /\
  (change_type r = Some "Minor Increase (1-5%)" \/
   change_type r = Some "Major Increase (>5%)" -> old < new) /\
  (new == old -> change_type r = Some "Stable (±1%)") /\
  (exists b, In b labels /\ change_type r = Some b).
Proof.
  intros H Hr Hpos _ old new.
  rewrite (produced_change_type _ _ _ _ _ H Hr).
  apply compare_snapshots_inv in H.
  destruct H as (older & newer & _ & _ & ->).
  apply in_compare_frames in Hr.
  destruct Hr as (n & o & _ & _ & _ & ->).
  subst old new. cbn [price_eur_old price_eur_new delta_row] in *.
  assert (Hpct : change_pct (delta_row n o)
                 = Fin ((price_eur n - price_eur o) / price_eur o * 100)).
  { cbn. destruct (Qcompare_spec (price_eur o) 0); try reflexivity. lra. }
  rewrite Hpct.
  pose proof (cut_fin_buckets
                ((price_eur n - price_eur o) / price_eur o * 100))
    as (B1 & B2 & B3 & B4 & B5).
  cbv zeta in *.
  rewrite !pct_le, !pct_lt in * by assumption.
  rewrite B1, B2, B4, B5.
  split; [intros [D|[_ D]]; lra|].
  split; [intros [[D _]|D]; lra|].
  split; [intro E; apply B3; lra|].
  apply cut_fin_label.
Qed.

Lemma change_type_follows_direction_witness :
  compare_snapshots rising_dir "20250617" "20250618"
  = inr [rising_delta] /\
  In rising_delta [rising_delta] /\
  0 < price_eur_old rising_delta /\
  0 <= price_eur_new rising_delta /\
  change_type rising_delta = Some "Minor Increase (1-5%)" /\
  price_eur_old rising_delta < price_eur_new rising_delta.
Proof.
  assert (Hc : compare_snapshots rising_dir "20250617" "20250618"
               = inr [rising_delta]) by reflexivity.
  assert (Hin : In rising_delta [rising_delta]) by (simpl; auto).
  assert (Hp : 0 < price_eur_old rising_delta) by reflexivity.
  assert (Hn : 0 <= price_eur_new rising_delta) by (simpl; lra).
  assert (Hl : change_type rising_delta = Some "Minor Increase (1-5%)")
    by reflexivity.
  do 5 (split; [assumption|]).
  exact (proj1 (proj2 (change_type_follows_direction _ _ _ _ _
                         Hc Hin Hp Hn))
           (or_introl Hl)).
Defined.

(** ** Snapshots without repeated keys *)

Lemma unique_key_matches (k : FlightKey) (df : list Observation) :
  NoDup (map obs_key df) ->
  (List.length (filter (fun o => key_eqb k (obs_key o)) df) <= 1)%nat.
Proof.
  induction df as [|o df IH]; simpl; intro Hnd; [lia|].
  inversion Hnd as [|? ? Hnotin Hnd']; subst.
  destruct (key_eqb k (obs_key o)) eqn:E; simpl; [|auto].
  apply key_eqb_eq in E. subst k.
  assert (Z : filter (fun o' => key_eqb (obs_key o) (obs_key o')) df = []).
  { destruct (filter _ df) as [|o' l] eqn:F; [reflexivity|].
    assert (Hin : In o' (filter (fun o' => key_eqb (obs_key o) (obs_key o'))
                           df)) by (rewrite F; simpl; auto).
    apply filter_In in Hin. destruct Hin as [Hin E].
    apply key_eqb_eq in E. exfalso. apply Hnotin. rewrite E.
    now apply in_map. }
  rewrite Z. simpl. lia.
Qed.

Lemma compare_frames_unique older newer :
  NoDup (map obs_key older) ->
  NoDup (map obs_key newer) ->
  NoDup (map key (compare_frames older newer)) /\
  (List.length (compare_frames older newer) <= List.length newer)%nat.
Proof.
  intros Ho Hn. unfold compare_frames, pd.merge.
  induction newer as [|n newer IH]; simpl; [split; [constructor | lia]|].
  inversion Hn as [|? ? Hnotin Hn']; subst.
  destruct (IH Hn') as [IHnd IHlen]. clear IH.
  pose proof (unique_key_matches (obs_key n) older Ho) as Hle.
  rewrite map_app, length_app, length_map.
  split; [|lia].
  destruct (filter (fun r => key_eqb (obs_key n) (obs_key r)) older)
    as [|o [|o' l]]; simpl in *; try lia; [exact IHnd|].
  constructor; [|exact IHnd].
  intro Hin. apply in_map_iff in Hin. destruct Hin as (r & Hk & Hr).
  apply in_flat_map in Hr. destruct Hr as (n' & Hn'in & Hr).
  apply in_map_iff in Hr. destruct Hr as (o'' & <- & _).
  simpl in Hk. apply Hnotin. rewrite <- Hk. now apply in_map.
Qed.

(** X4.  When no flight key repeats within either snapshot, the join does
    not fan out: no key repeats in the delta table, and the table has at
    most as many records as the smaller snapshot has rows. *)
Theorem unique_keys_give_unique_records
    snapshots_dir date1 date2 older newer :
  snapshots_dir date1 = Some older ->
  snapshots_dir date2 = Some newer ->
  NoDup (map obs_key older) ->
  NoDup (map obs_key newer) ->
  exists deltas,
    compare_snapshots snapshots_dir date1 date2 = inr deltas /\
    NoDup (map key deltas) /\
    (List.length deltas <= List.length older)%nat /\
    (List.length deltas <= List.length newer)%nat.
Proof.
  intros H1 H2 Ho Hn. exists (compare_frames older newer).
  split; [now apply compare_snapshots_loaded|].
  destruct (compare_frames_unique older newer Ho Hn) as [Hnd Hlen].
  split; [exact Hnd|]. split; [|exact Hlen].
  destruct (compare_frames_unique newer older Hn Ho) as [_ Hlen'].
  pose proof (Permutation_length (compare_frames_swap older newer)) as P.
  rewrite !length_map in P. lia.
Qed.

Lemma unique_keys_give_unique_records_witness :
  steady_dir "20250617" = Some [mkObs bcn_mad_x 80; mkObs bcn_mad_y 90] /\
  steady_dir "20250618" = Some [mkObs bcn_mad_x 80; mkObs bcn_mad_y 90] /\
  NoDup (map obs_key [mkObs bcn_mad_x 80; mkObs bcn_mad_y 90]) /\
  exists deltas,
    compare_snapshots steady_dir "20250617" "20250618" = inr deltas /\
    NoDup (map key deltas) /\
    (List.length deltas <= 2)%nat.
Proof.
  assert (Hnd : NoDup (map obs_key [mkObs bcn_mad_x 80; mkObs bcn_mad_y 90])).
  { simpl. constructor; [|constructor; [|constructor]]; simpl.
    - intros [E|[]]. discriminate.
    - tauto. }
  split; [reflexivity|]. split; [reflexivity|]. split; [exact Hnd|].
  destruct (unique_keys_give_unique_records steady_dir
              "20250617" "20250618" _ _ eq_refl eq_refl Hnd Hnd)
    as (deltas & Hc & Hk & Hl & _).
  exists deltas. split; [exact Hc|]. split; [exact Hk | exact Hl].
Defined.

(** * Further properties of the two analyses *)

(** ** Sums and means of finite columns *)

Lemma sum_fin {A} (f : A -> Q) (g : list A) (a : Q) :
  fold_left fl.add (map (fun r => Fin (f r)) g) (Fin a)
  = Fin (fold_left Qplus (map f g) a).
Proof.
  revert a. induction g as [|r g IH]; intro a; simpl; [reflexivity|].
  apply IH.
Qed.

Lemma of_nat_positive (n : nat) : 0 < inject_Z (Z.of_nat (S n)).
Proof. unfold Qlt. simpl. lia. Qed.

Lemma mean_fin {A} (f : A -> Q) (g : list A) :
  g <> [] ->
  agg.mean (map (fun r => Fin (f r)) g)
  = Fin (fold_left Qplus (map f g) 0
         / inject_Z (Z.of_nat (List.length g))).
Proof.
  intro Hne. unfold agg.mean, agg.count, agg.sum.
  rewrite valid_fin, length_map, sum_fin.
  destruct g as [|r g]; [contradiction|].
  cbn [List.length]. unfold agg.of_nat. cbn [fl.div].
  pose proof (of_nat_positive (List.length g)) as Hpos.
  destruct (Qcompare_spec (inject_Z (Z.of_nat (S (List.length g)))) 0);
    try reflexivity. lra.
Qed.

Lemma nodup_length_le (l : list string) :
  (List.length (nodup string_dec l) <= List.length l)%nat.
Proof.
  induction l as [|x l IH]; simpl; [lia|].
  destruct (in_dec string_dec x l); simpl; lia.
Qed.

Lemma dropna_length_le (col : list (option string)) :
  (List.length (pd.dropna col) <= List.length col)%nat.
Proof.
  induction col as [|[x|] col IH]; simpl; lia.
Qed.

Lemma nunique_zero (col : list (option string)) :
  agg.nunique col = 0%nat <-> forall c, In c col -> c = None.
Proof.
  unfold agg.nunique. split.
  - intros H [x|] Hc; [|reflexivity]. exfalso.
    apply in_dropna, (nodup_In string_dec) in Hc.
    destruct (nodup string_dec (pd.dropna col)); [exact Hc | discriminate].
  - intro H.
    destruct (nodup string_dec (pd.dropna col)) as [|x l] eqn:E;
      [reflexivity|]. exfalso.
    assert (Hx : In x (nodup string_dec (pd.dropna col)))
      by (rewrite E; simpl; auto).
    apply nodup_In, in_dropna, H in Hx. discriminate.
Qed.

Lemma group_nonempty {A} (by_ : A -> option string) (df : list A) k :
  In (Some k) (map by_ df) ->
  filter (fun r => pd.cell_is (by_ r) k) df <> [].
Proof.
  intro Hk. apply in_map_iff in Hk. destruct Hk as (r & Hr & Hin).
  intro E.
  assert (Hf : In r (filter (fun r' => pd.cell_is (by_ r') k) df))
    by (apply filter_In; split; [exact Hin | now apply cell_is_some]).
  rewrite E in Hf. exact Hf.
Qed.

Section Tables.

Context `{np : Numpy}.

Lemma ota_keys df :
  Permutation (map ota (analyze_ota_changes df))
    (nodup string_dec (pd.dropna (col_gate df))).
Proof.
  etransitivity; [apply Permutation_map, analyze_ota_perm|].
  unfold ota_analysis, groupby. rewrite !map_map.
  rewrite (map_ext _ (fun k => k)), map_id by reflexivity.
  apply Permutation_sym, StringSort.Permuted_sort.
Qed.

Lemma route_keys df :
  Permutation (map route_name (analyze_route_changes df))
    (nodup string_dec (pd.dropna (map route df))).
Proof.
  etransitivity; [apply Permutation_map, analyze_route_perm|].
  unfold route_analysis, groupby. rewrite !map_map.
  rewrite (map_ext _ (fun k => k)), map_id by reflexivity.
  apply Permutation_sym, StringSort.Permuted_sort.
Qed.

(** X5.  The per-agent table has exactly one row for each agent named in
    the delta table and no other row, and the per-route table one row
    for each route: the keys do not repeat, they are the agents (routes)
    that occur in a record, and the number of rows is the number of
    distinct ones.  A record whose agent (route) is missing adds no
    row. *)
Theorem one_row_per_group (df : list Delta) :
  (NoDup (map ota (analyze_ota_changes df)) /\
   (forall k, In k (map ota (analyze_ota_changes df)) <->
              exists r, In r df /\ gate (key r) = Some k) /\
   List.length (analyze_ota_changes df) = agg.nunique (col_gate df)) /\
  (NoDup (map route_name (analyze_route_changes df)) /\
   (forall k, In k (map route_name (analyze_route_changes df)) <->
              exists r, In r df /\ route r = Some k) /\
   List.length (analyze_route_changes df) = agg.nunique (map route df)).
Proof.
  assert (Hex : forall (f : Delta -> option string) k,
             In k (nodup string_dec (pd.dropna (map f df))) <->
             exists r, In r df /\ f r = Some k).
  { intros f k. rewrite nodup_In, in_dropna, in_map_iff.
    split; intros (r & H1 & H2); eauto. }
  split.
  - pose proof (ota_keys df) as P. split; [|split].
    + eapply Permutation_NoDup; [apply Permutation_sym, P|].
      apply NoDup_nodup.
    + intro k. rewrite <- (Hex (fun r => gate (key r))).
      split; intro Hk.
      * eapply Permutation_in; [exact P | exact Hk].
      * eapply Permutation_in; [apply Permutation_sym, P | exact Hk].
    + apply Permutation_length in P. now rewrite length_map in P.
  - pose proof (route_keys df) as P. split; [|split].
    + eapply Permutation_NoDup; [apply Permutation_sym, P|].
      apply NoDup_nodup.
    + intro k. rewrite <- (Hex route). split; intro Hk.
      * eapply Permutation_in; [exact P | exact Hk].
      * eapply Permutation_in; [apply Permutation_sym, P | exact Hk].
    + apply Permutation_length in P. now rewrite length_map in P.
Qed.

(** X6.  No row of either table stands for an empty group: every row
    counts at least one flight and reports a mean price difference that is
    a number, the per-agent rows a mean current price that is a number.
    A per-route row counts at most as many agents as flights, and no
    agent exactly when the agent is missing in every record of the
    route. *)
Theorem summary_rows_are_populated (df : list Delta) :
  (forall row,
      In row (analyze_ota_changes df) ->
      (1 <= total_flights (ota_stats row))%nat /\
      (exists q, avg_price_diff (ota_stats row) = Fin q) /\
      (exists q, avg_current_price row = Fin q)) /\
  (forall row,
      In row (analyze_route_changes df) ->
      (1 <= total_flights (route_stats row))%nat /\
      (exists q, avg_price_diff (route_stats row) = Fin q) /\
      (num_otas row <= total_flights (route_stats row))%nat /\
      (num_otas row = 0%nat <->
       forall r, In r df -> route r = Some (route_name row) ->
                 gate (key r) = None)).
Proof.
  split; intros row Hin.
  - apply in_analyze_ota in Hin. destruct Hin as (k & Hk & ->).
    apply group_nonempty in Hk.
    set (g := filter (fun r => pd.cell_is (gate (key r)) k) df) in *.
    cbn [ota_row ota_stats round_stats agg_stats total_flights
           avg_price_diff avg_current_price].
    rewrite count_price_diff.
    unfold col_price_diff, col_price_eur_new.
    rewrite !mean_fin by assumption. cbn [fl.round2].
    split; [|split; eexists; reflexivity].
    destruct g; [contradiction | simpl; lia].
  - apply in_analyze_route in Hin. destruct Hin as (k & Hk & ->).
    apply group_nonempty in Hk.
    set (g := filter (fun r => pd.cell_is (route r) k) df) in *.
    cbn [route_row route_stats round_stats agg_stats total_flights
           avg_price_diff num_otas route_name].
    rewrite count_price_diff.
    unfold col_price_diff. rewrite mean_fin by assumption.
    cbn [fl.round2].
    split; [destruct g; [contradiction | simpl; lia]|].
    split; [eexists; reflexivity|].
    split.
    + unfold agg.nunique. etransitivity; [apply nodup_length_le|].
      etransitivity; [apply dropna_length_le|].
      unfold col_gate. now rewrite length_map.
    + rewrite nunique_zero. unfold col_gate, g. split.
      * intros H r Hr Er. apply H.
        apply (in_map (fun r => gate (key r))).
        apply filter_In. split; [exact Hr | now apply cell_is_some].
      * intros H c Hc. apply in_map_iff in Hc.
        destruct Hc as (r & <- & Hr). apply filter_In in Hr.
        destruct Hr as [Hr Er]. apply cell_is_some in Er. auto.
Qed.

End Tables.

(** ** Rounding, minimum and maximum of finite columns *)

Lemma rint_mono (a b : Q) : a <= b -> (fl.rint a <= fl.rint b)%Z.
Proof.
  intro Hab. unfold fl.rint.
  pose proof (Qfloor_resp_le a b Hab) as Hf.
  pose proof (Qfloor_le a) as La. pose proof (Qlt_floor a) as Ua.
  pose proof (Qfloor_le b) as Lb. pose proof (Qlt_floor b) as Ub.
  rewrite inject_Z_plus in Ua, Ub.
  destruct (Z.eq_dec (Qfloor a) (Qfloor b)) as [E|N].
  - rewrite E in *.
    destruct (Qcompare_spec (a - inject_Z (Qfloor b)) (1 # 2)),
      (Qcompare_spec (b - inject_Z (Qfloor b)) (1 # 2)),
      (Z.even (Qfloor b)); try lia; exfalso; lra.
  - destruct (Qcompare_spec (a - inject_Z (Qfloor a)) (1 # 2)),
      (Qcompare_spec (b - inject_Z (Qfloor b)) (1 # 2)),
      (Z.even (Qfloor a)), (Z.even (Qfloor b)); lia.
Qed.

Lemma fold_fmin_fin {A} (f : A -> Q) (xs : list A) (x : Q) :
  exists m,
    fold_left agg.fmin (map (fun r => Fin (f r)) xs) (Fin x) = Fin m /\
    m <= x /\ Forall (fun r => m <= f r) xs.
Proof.
  revert x. induction xs as [|r xs IH]; intro x; simpl.
  - exists x. repeat split; [lra | constructor].
  - unfold agg.fmin at 2. cbn [fl.ltb].
    destruct (fl.Qltb (f r) x) eqn:E; q_props.
    + destruct (IH (f r)) as (m & Hm & Hle & Hall).
      exists m. repeat split; [exact Hm | lra | constructor; assumption].
    + destruct (IH x) as (m & Hm & Hle & Hall).
      exists m.
      repeat split; [exact Hm | lra | constructor; [lra | assumption]].
Qed.

Lemma fold_fmax_fin {A} (f : A -> Q) (xs : list A) (x : Q) :
  exists m,
    fold_left agg.fmax (map (fun r => Fin (f r)) xs) (Fin x) = Fin m /\
    x <= m /\ Forall (fun r => f r <= m) xs.
Proof.
  revert x. induction xs as [|r xs IH]; intro x; simpl.
  - exists x. repeat split; [lra | constructor].
  - unfold agg.fmax at 2. cbn [fl.ltb].
    destruct (fl.Qltb x (f r)) eqn:E; q_props.
    + destruct (IH (f r)) as (m & Hm & Hle & Hall).
      exists m. repeat split; [exact Hm | lra | constructor; assumption].
    + destruct (IH x) as (m & Hm & Hle & Hall).
      exists m.
      repeat split; [exact Hm | lra | constructor; [lra | assumption]].
Qed.

Lemma min_fin {A} (f : A -> Q) (g : list A) :
  g <> [] ->
  exists m, agg.min (map (fun r => Fin (f r)) g) = Fin m /\
            Forall (fun r => m <= f r) g.
Proof.
  intro Hne. unfold agg.min. rewrite valid_fin.
  destruct g as [|r xs]; [contradiction|]. simpl.
  destruct (fold_fmin_fin f xs (f r)) as (m & Hm & Hle & Hall).
  exists m. split; [exact Hm | constructor; assumption].
Qed.

Lemma max_fin {A} (f : A -> Q) (g : list A) :
  g <> [] ->
  exists m, agg.max (map (fun r => Fin (f r)) g) = Fin m /\
            Forall (fun r => f r <= m) g.
Proof.
  intro Hne. unfold agg.max. rewrite valid_fin.
  destruct g as [|r xs]; [contradiction|]. simpl.
  destruct (fold_fmax_fin f xs (f r)) as (m & Hm & Hle & Hall).
  exists m. split; [exact Hm | constructor; assumption].
Qed.

Lemma of_nat_succ (n : nat) :
  inject_Z (Z.of_nat (S n)) == inject_Z (Z.of_nat n) + 1.
Proof. rewrite Nat2Z.inj_succ, <- Z.add_1_r, inject_Z_plus. reflexivity. Qed.

Lemma sum_lower {A} (f : A -> Q) (g : list A) (lo a : Q) :
  Forall (fun r => lo <= f r) g ->
  a + lo * inject_Z (Z.of_nat (List.length g))
  <= fold_left Qplus (map f g) a.
Proof.
  intro Hall. revert a. induction Hall as [|r g Hr _ IH]; intro a.
  - cbn [map fold_left List.length Z.of_nat].
    change (inject_Z 0) with 0. lra.
  - cbn [map fold_left List.length]. rewrite of_nat_succ.
    specialize (IH (a + f r)). lra.
Qed.

Lemma sum_upper {A} (f : A -> Q) (g : list A) (hi a : Q) :
  Forall (fun r => f r <= hi) g ->
  fold_left Qplus (map f g) a
  <= a + hi * inject_Z (Z.of_nat (List.length g)).
Proof.
  intro Hall. revert a. induction Hall as [|r g Hr _ IH]; intro a.
  - cbn [map fold_left List.length Z.of_nat].
    change (inject_Z 0) with 0. lra.
  - cbn [map fold_left List.length]. rewrite of_nat_succ.
    specialize (IH (a + f r)). lra.
Qed.

(** The statistics of a group whose values are all finite. *)
Lemma finite_col (g : list Delta) :
  (forall r, In r g -> exists q, change_pct r = Fin q) ->
  col_change_pct g = map (fun r => Fin (finite_part (change_pct r))) g.
Proof.
  intro Hfin. unfold col_change_pct. apply map_ext_in.
  intros r Hr. destruct (Hfin r Hr) as (q & ->). reflexivity.
Qed.

(** * Properties of the report *)

(** ** The summary text *)

Lemma inject_nat_le (a b : nat) :
  (a <= b)%nat -> inject_Z (Z.of_nat a) <= inject_Z (Z.of_nat b).
Proof. intro H. rewrite <- Zle_Qle. lia. Qed.

Lemma changed_none (df : list Delta) :
  changed df = [] <-> forall r, In r df -> price_diff r == 0.
Proof.
  unfold changed. induction df as [|r df IH]; simpl.
  - split; [intros _ r [] | reflexivity].
  - destruct (Qeq_bool (price_diff r) 0) eqn:E; simpl.
    + apply Qeq_bool_iff in E. rewrite IH. split.
      * intros H r' [<-|Hr']; auto.
      * intros H r' Hr'. auto.
    + apply Qeq_bool_neq in E. split; [discriminate|].
      intro H. exfalso. apply E, H. auto.
Qed.

Lemma summary_stats_nonempty (df : list Delta) :
  df <> [] ->
  summary_stats df
  = inr {| summary.total_flights := List.length df;
           summary.changed_flights := List.length (changed df);
           summary.changed_share :=
             inject_Z (Z.of_nat (List.length (changed df)))
             / inject_Z (Z.of_nat (List.length df)) * 100;
           summary.avg_change := agg.mean (col_change_pct df);
           summary.max_increase := agg.max (col_price_diff df);
           summary.max_decrease := agg.min (col_price_diff df);
           summary.active_otas := agg.nunique (col_gate df);
           summary.routes_monitored := agg.nunique (map route df) |}.
Proof. destruct df; [contradiction | reflexivity]. Qed.

(** X8.  On a table with at least one record the summary text of the
    figure is computed: the changed flights are at most all flights,
    their share lies between 0 and 100, no flight counts as changed
    exactly when every price difference is zero, every flight exactly
    when none is, the biggest decrease is not above the biggest increase,
    and the agents and routes counted are at most the flights. *)
Theorem summary_stats_share (df : list Delta) :
  df <> [] ->
  exists s,
    summary_stats df = inr s /\
    summary.total_flights s = List.length df /\
    (summary.changed_flights s <= summary.total_flights s)%nat /\
    0 <= summary.changed_share s /\
    summary.changed_share s <= 100 /\
    (summary.changed_flights s = 0%nat <->
     forall r, In r df -> price_diff r == 0) /\
    (summary.changed_flights s = summary.total_flights s <->
     forall r, In r df -> ~ price_diff r == 0) /\
    fl.leb (summary.max_decrease s) (summary.max_increase s) = true /\
    (summary.active_otas s <= summary.total_flights s)%nat /\
    (summary.routes_monitored s <= summary.total_flights s)%nat.
Proof.
  intro Hne. eexists. split; [apply (summary_stats_nonempty df Hne)|].
  cbn [summary.total_flights summary.changed_flights
         summary.changed_share summary.max_decrease
         summary.max_increase summary.active_otas
         summary.routes_monitored].
  pose proof (filter_length_le
                (fun r => negb (Qeq_bool (price_diff r) 0)) df) as Hle.
  fold (changed df) in Hle.
  assert (Hpos : 0 < inject_Z (Z.of_nat (List.length df)))
    by (destruct df; [contradiction | apply of_nat_positive]).
  pose proof (inject_nat_le _ _ Hle) as Hq.
  pose proof (inject_nat_le 0 _ (Nat.le_0_l (List.length (changed df))))
    as H0.
  change (inject_Z (Z.of_nat 0)) with 0 in H0.
  assert (Hlo : 0 <= inject_Z (Z.of_nat (List.length (changed df)))
                     / inject_Z (Z.of_nat (List.length df)))
    by (apply Qle_shift_div_l; [exact Hpos | lra]).
  assert (Hhi : inject_Z (Z.of_nat (List.length (changed df)))
                / inject_Z (Z.of_nat (List.length df)) <= 1)
    by (apply Qle_shift_div_r; [exact Hpos | lra]).
  assert (Hu : forall col : list (option string),
             (agg.nunique col <= List.length col)%nat).
  { intro col. unfold agg.nunique.
    etransitivity; [apply nodup_length_le | apply dropna_length_le]. }
  split; [reflexivity|]. split; [exact Hle|].
  split; [lra|]. split; [lra|]. split; [|split; [|split; [|split]]].
  - rewrite <- changed_none. destruct (changed df); simpl; split;
      congruence.
  - unfold changed. rewrite filter_all. split; intros H r Hr.
    + specialize (H r Hr). apply negb_true_iff, Qeq_bool_neq in H.
      exact H.
    + apply negb_true_iff. specialize (H r Hr).
      destruct (Qeq_bool (price_diff r) 0) eqn:E; [|reflexivity].
      apply Qeq_bool_iff in E. contradiction.
  - unfold col_price_diff.
    destruct (min_fin price_diff df Hne) as (lo & -> & Hlo').
    destruct (max_fin price_diff df Hne) as (hi & -> & Hhi').
    destruct df as [|r df'']; [contradiction|].
    inversion Hlo'; inversion Hhi'; subst.
    cbn [fl.leb]. apply Qle_bool_iff. lra.
  - etransitivity; [apply Hu|]. unfold col_gate. now rewrite length_map.
  - etransitivity; [apply Hu|]. now rewrite length_map.
Qed.

Lemma summary_stats_share_witness :
  [rising_delta] <> [] /\
  exists s,
    summary_stats [rising_delta] = inr s /\
    summary.total_flights s = 1%nat /\
    summary.changed_share s <= 100.
Proof.
  assert (Hne : [rising_delta] <> []) by discriminate.
  split; [exact Hne|].
  destruct (summary_stats_share [rising_delta] Hne)
    as (s & E & Ht & _ & _ & Hs & _).
  exists s. split; [exact E|]. split; [exact Ht | exact Hs].
Defined.

(** ** The run of a report *)

Section Report.

Context `{np : Numpy} `{mpl : Matplotlib} `{disk : Disk}.

Lemma report_run snapshots_dir date1 date2 (files : Files) :
  generate_comparison_report snapshots_dir date1 date2 files
  = match compare_snapshots snapshots_dir date1 date2 with
    | inl e => (inl (Raised e), files)
    | inr df =>
        match draw_charts df date1 date2 with
        | Some msg => (inl (PlotError msg), files)
        | None =>
            match summary_stats df with
            | inl e => (inl e, files)
            | inr s =>
                match draw_summary s with
                | Some msg => (inl (PlotError msg), files)
                | None => save_report date1 date2 df files
                end
            end
        end
    end.
Proof.
  unfold generate_comparison_report, create_comparison_visualizations,
    save_report, io_bind, lift_exn, lift, plot, io_raise, io_ret,
    write_file, report_files.
  destruct (compare_snapshots snapshots_dir date1 date2) as [e|df];
    [reflexivity|].
  destruct (draw_charts df date1 date2); [reflexivity|].
  destruct (summary_stats df) as [e|s]; [reflexivity|].
  destruct (draw_summary s); [reflexivity|].
  destruct (savefig _); [reflexivity|].
  destruct (writable (results_path "price_comparison" _ _ _));
    [|reflexivity].
  destruct show; [reflexivity|].
  destruct (writable (results_path "detailed_comparison" _ _ _));
    [|reflexivity].
  destruct (writable (results_path "ota_analysis" _ _ _));
    [|cbn [negb firstn]; rewrite <- ?app_assoc; reflexivity].
  destruct (writable (results_path "route_analysis" _ _ _));
    [|cbn [negb firstn]; rewrite <- ?app_assoc; reflexivity].
  cbn [negb firstn]. rewrite <- !app_assoc. reflexivity.
Qed.

Ltac written_files :=
  let Hin := fresh "Hin" in
  let E := fresh "E" in
  intros ? ? Hin; cbn [firstn report_files In] in Hin;
  repeat (destruct Hin as [E|Hin]; [inversion E; subst; assumption|]);
  destruct Hin.

Ltac stopped_after k :=
  exists k; cbn [fst snd];
  split; [lia|];
  split; [cbn [firstn]; rewrite ?app_nil_r; reflexivity|];
  split; [split; [lia | discriminate]|];
  split; [split; [eauto | lia]|];
  split; [intro; first [lia | reflexivity] | written_files].

Lemma save_report_prefix date1 date2 df (files : Files) :
  exists n : nat,
    (n <= 4)%nat /\
    snd (save_report date1 date2 df files)
    = files ++ firstn n (report_files date1 date2 df) /\
    (n = 4%nat <->
     fst (save_report date1 date2 df files)
     = inr (df, analyze_ota_changes df, analyze_route_changes df)) /\
    ((n < 4)%nat <-> exists e, fst (save_report date1 date2 df files) = inl e)
    /\ ((2 <= n)%nat -> show = None)
    /\ (forall path c,
          In (path, c) (firstn n (report_files date1 date2 df)) ->
          writable path = true).
Proof.
  unfold save_report.
  destruct (savefig _) as [msg|]; [stopped_after 0%nat|].
  destruct (writable (results_path "price_comparison" _ _ _)) eqn:W1;
    cbn [negb]; [|stopped_after 0%nat].
  destruct show as [msg|] eqn:S; [stopped_after 1%nat|].
  destruct (writable (results_path "detailed_comparison" _ _ _)) eqn:W2;
    cbn [negb]; [|stopped_after 1%nat].
  destruct (writable (results_path "ota_analysis" _ _ _)) eqn:W3;
    cbn [negb]; [|stopped_after 2%nat].
  destruct (writable (results_path "route_analysis" _ _ _)) eqn:W4;
    cbn [negb]; [|stopped_after 3%nat].
  exists 4%nat. cbn [fst snd].
  split; [lia|]. split; [reflexivity|].
  split; [split; reflexivity|].
  split; [split; [lia | intros [e E]; discriminate E]|].
  split; [reflexivity | written_files].
Qed.

(** X9.  A report is written in a fixed order and may stop half-way.
    Once the snapshots are compared, the files a run adds are the first
    [n] of the figure, the detailed table, the per-agent table and the
    per-route table, holding the tables of the comparison.  All four are
    there exactly when the run returns, and it then returns those tables,
    which are not empty; fewer are there exactly when it raises.  Every
    file added was writable, and a table is only written after
    [plt.show] has returned: when showing the figure fails, the figure
    is the only file that can be left. *)
Theorem report_written_in_order
    snapshots_dir date1 date2 df (files : Files) :
  compare_snapshots snapshots_dir date1 date2 = inr df ->
  let run := generate_comparison_report snapshots_dir date1 date2 files in
  exists n : nat,
    (n <= 4)%nat /\
    snd run = files ++ firstn n (report_files date1 date2 df) /\
    (n = 4%nat <->
     fst run = inr (df, analyze_ota_changes df, analyze_route_changes df)) /\
    ((n < 4)%nat <-> exists e, fst run = inl e) /\
    (n = 4%nat -> df <> []) /\
    ((2 <= n)%nat -> show = None) /\
    (forall path c,
        In (path, c) (firstn n (report_files date1 date2 df)) ->
        writable path = true).
Proof.
  intro Hc. cbv zeta. rewrite report_run, Hc.
  assert (Hstop : forall e : error,
             exists n : nat,
               (n <= 4)%nat /\
               files = files ++ firstn n (report_files date1 date2 df) /\
               (n = 4%nat <->
                @inl error (list Delta * list OtaRow * list RouteRow) e
                = inr (df, analyze_ota_changes df,
                       analyze_route_changes df)) /\
               ((n < 4)%nat <->
                exists e',
                  @inl error (list Delta * list OtaRow * list RouteRow) e
                  = inl e') /\
               (n = 4%nat -> df <> []) /\
               ((2 <= n)%nat -> show = None) /\
               (forall path c,
                   In (path, c) (firstn n (report_files date1 date2 df)) ->
                   writable path = true)).
  { intro e. exists 0%nat. cbn [firstn]. rewrite app_nil_r.
    split; [lia|]. split; [reflexivity|].
    split; [split; [lia | discriminate]|].
    split; [split; [eauto | lia]|].
    split; [lia|]. split; [lia | intros _ _ []]. }
  destruct (draw_charts df date1 date2); [apply Hstop|].
  destruct (summary_stats df) as [e|s] eqn:Es; [apply Hstop|].
  destruct (draw_summary s); [apply Hstop|].
  destruct (save_report_prefix date1 date2 df files)
    as (n & Hn & Hf & H4 & Hlt & Hs & Hw).
  exists n. do 4 (split; [assumption|]).
  split; [|split; assumption].
  intros _ ->. discriminate Es.
Qed.

(** X10.  The report of two snapshots without a common flight never
    completes, although the comparison and both analyses of the empty
    table do: the run raises, the division by zero of the summary text
    unless a plotting call raises first, and writes no file. *)
Theorem report_of_disjoint_snapshots_fails
    snapshots_dir date1 date2 older newer (files : Files) :
  snapshots_dir date1 = Some older ->
  snapshots_dir date2 = Some newer ->
  (forall n o, In n newer -> In o older -> obs_key n <> obs_key o) ->
  let run := generate_comparison_report snapshots_dir date1 date2 files in
  compare_snapshots snapshots_dir date1 date2 = inr [] /\
  (fst run = inl ZeroDivisionError \/
   exists msg, fst run = inl (PlotError msg)) /\
  (draw_charts [] date1 date2 = None -> fst run = inl ZeroDivisionError) /\
  snd run = files.
Proof.
  intros H1 H2 Hdis. cbv zeta.
  assert (Hc : compare_snapshots snapshots_dir date1 date2 = inr []).
  { rewrite (compare_snapshots_loaded _ _ _ _ _ H1 H2).
    now rewrite compare_frames_disjoint. }
  split; [exact Hc|].
  rewrite report_run, Hc.
  destruct (draw_charts [] date1 date2) as [msg|]; simpl.
  - split; [right; eauto|]. split; [discriminate | reflexivity].
  - split; [left; reflexivity|]. split; reflexivity.
Qed.

(** X11.  When a snapshot is missing, the report raises the
    [FileNotFoundError] of the comparison before anything is plotted or
    written: the error names the first date whose snapshot is missing. *)
Theorem report_of_missing_snapshot
    snapshots_dir date1 date2 (files : Files) :
  snapshots_dir date1 = None \/ snapshots_dir date2 = None ->
  let run := generate_comparison_report snapshots_dir date1 date2 files in
  snd run = files /\
  (snapshots_dir date1 = None ->
   fst run = inl (Raised (FileNotFoundError date1))) /\
  (snapshots_dir date1 <> None ->
   fst run = inl (Raised (FileNotFoundError date2))).
Proof.
  intro Hmiss. cbv zeta. rewrite report_run.
  unfold compare_snapshots, load_snapshot.
  destruct (snapshots_dir date1) as [older|]; simpl.
  - destruct Hmiss as [E|E]; [discriminate|]. rewrite E. simpl.
    split; [reflexivity|]. split; [discriminate | reflexivity].
  - split; [reflexivity|]. split; [reflexivity | congruence].
Qed.

End Report.

Lemma report_written_in_order_witness :
  compare_snapshots rising_dir "20250617" "20250618"
  = inr [rising_delta] /\
  generate_comparison_report (np := stable_numpy) (mpl := headless_plots)
    (disk := open_disk) rising_dir "20250617" "20250618" []
  = (inl (PlotError "cannot show the figure"),
     [(results_path "price_comparison" "20250617" "20250618" ".png",
       PngFigure)]) /\
  exists n : nat,
    (n < 4)%nat /\
    snd (generate_comparison_report (np := stable_numpy)
           (mpl := headless_plots) (disk := open_disk)
           rising_dir "20250617" "20250618" [])
    = [] ++ firstn n (report_files (np := stable_numpy)
                        "20250617" "20250618" [rising_delta]).
Proof.
  assert (Hc : compare_snapshots rising_dir "20250617" "20250618"
               = inr [rising_delta]) by reflexivity.
  split; [exact Hc|]. split; [reflexivity|].
  destruct (report_written_in_order (np := stable_numpy)
              (mpl := headless_plots) (disk := open_disk)
              rising_dir "20250617" "20250618" _ [] Hc)
    as (n & _ & Hf & _ & Hlt & _).
  exists n. split; [|exact Hf].
  apply Hlt. eexists. reflexivity.
Defined.

Lemma report_of_disjoint_snapshots_fails_witness :
  disjoint_dir "20250617" = Some [mkObs ist_nrt_y 500] /\
  disjoint_dir "20250618" = Some [mkObs bcn_mad_x 84] /\
  share_no_key [mkObs ist_nrt_y 500] [mkObs bcn_mad_x 84] = true /\
  generate_comparison_report (np := stable_numpy) (mpl := quiet_plots)
    (disk := open_disk) disjoint_dir "20250617" "20250618" []
  = (inl ZeroDivisionError, []).
Proof.
  assert (Hs : share_no_key [mkObs ist_nrt_y 500] [mkObs bcn_mad_x 84]
               = true) by reflexivity.
  split; [reflexivity|]. split; [reflexivity|]. split; [exact Hs|].
  destruct (report_of_disjoint_snapshots_fails
              (np := stable_numpy) (mpl := quiet_plots) (disk := open_disk)
              disjoint_dir "20250617" "20250618" _ _ [] eq_refl eq_refl
              (proj1 (share_no_key_spec _ _) Hs))
    as (_ & _ & Hz & Hf).
  apply injective_projections; [exact (Hz eq_refl) | exact Hf].
Defined.

Lemma report_of_missing_snapshot_witness :
  rising_dir "20250619" = None /\
  rising_dir "20250617" <> None /\
  generate_comparison_report (np := stable_numpy) (mpl := quiet_plots)
    (disk := open_disk) rising_dir "20250617" "20250619" []
  = (inl (Raised (FileNotFoundError "20250619")), []).
Proof.
  assert (Hm : rising_dir "20250619" = None) by reflexivity.
  assert (Hp : rising_dir "20250617" <> None) by discriminate.
  split; [exact Hm|]. split; [exact Hp|].
  destruct (report_of_missing_snapshot
              (np := stable_numpy) (mpl := quiet_plots) (disk := open_disk)
              rising_dir "20250617" "20250619" [] (or_intror Hm))
    as (Hf & _ & He).
  apply injective_projections; [exact (He Hp) | exact Hf].
Defined.

Lemma summary_rows_are_populated_witness :
  In (ota_row (np := stable_numpy) ("AgentX", [rising_delta]))
    (analyze_ota_changes (np := stable_numpy) [rising_delta]) /\
  (1 <= total_flights
          (ota_stats
             (ota_row (np := stable_numpy) ("AgentX", [rising_delta]))))%nat.
Proof.
  set (row := ota_row (np := stable_numpy) ("AgentX", [rising_delta])).
  assert (Hin : In row
                  (analyze_ota_changes (np := stable_numpy) [rising_delta]))
    by (left; reflexivity).
  split; [exact Hin|].
  exact (proj1 (proj1 (summary_rows_are_populated [rising_delta])
                  row Hin)).
Defined.

(** ** Labels of the records and label of the agent *)

Lemma cut_label_finite (x : float) (b : string) :
  pd.cut bins labels x = Some b ->
  b <> "Major Increase (>5%)" ->
  exists q, x = Fin q.
Proof.
  destruct x as [q| | |]; intros H Hb.
  - eauto.
  - exfalso. apply Hb. cbv in H. congruence.
  - discriminate H.
  - discriminate H.
Qed.

Lemma mean_between {A} (f : A -> Q) (g : list A) (lo hi : Q) :
  g <> [] ->
  Forall (fun r => lo <= f r /\ f r <= hi) g ->
  exists m,
    agg.mean (map (fun r => Fin (f r)) g) = Fin m /\ lo <= m /\ m <= hi.
Proof.
  intros Hne Hall. rewrite (mean_fin f g Hne). eexists.
  split; [reflexivity|].
  assert (Hlo : Forall (fun r => lo <= f r) g)
    by (eapply Forall_impl; [|exact Hall]; simpl; tauto).
  assert (Hhi : Forall (fun r => f r <= hi) g)
    by (eapply Forall_impl; [|exact Hall]; simpl; tauto).
  pose proof (sum_lower f g lo 0 Hlo) as L.
  pose proof (sum_upper f g hi 0 Hhi) as U.
  assert (Hpos : 0 < inject_Z (Z.of_nat (List.length g))).
  { destruct g; [contradiction|]. apply of_nat_positive. }
  split.
  - apply Qle_shift_div_l; [exact Hpos | lra].
  - apply Qle_shift_div_r; [exact Hpos | lra].
Qed.

Lemma rint_between (m : Q) (lo hi : Z) :
  inject_Z lo <= m -> m <= inject_Z hi ->
  (lo <= fl.rint m <= hi)%Z.
Proof.
  intros L U.
  pose proof (rint_mono _ _ L) as L'. pose proof (rint_mono _ _ U) as U'.
  assert (E : forall z, fl.rint (inject_Z z) = z).
  { intro z. unfold fl.rint. rewrite Qfloor_Z.
    destruct (Qcompare_spec (inject_Z z - inject_Z z) (1 # 2));
      try reflexivity; exfalso; lra. }
  rewrite E in L', U'. lia.
Qed.

Section Agreement.

Context `{np : Numpy}.

(** X12.  The label of an agent follows the labels of its records at the
    two ends where rounding cannot interfere: an agent whose records are
    all Stable is Stable, and an agent whose records are all Major Drops
    is an Aggressive Decrease. *)
Theorem uniform_records_fix_strategy
    snapshots_dir date1 date2 deltas row :
  compare_snapshots snapshots_dir date1 date2 = inr deltas ->
  In row (analyze_ota_changes deltas) ->
  ((forall r, In r deltas -> gate (key r) = Some (ota row) ->
              change_type r = Some "Stable (±1%)") ->
   pricing_strategy row = "Stable") /\
  ((forall r, In r deltas -> gate (key r) = Some (ota row) ->
              change_type r = Some "Major Drop (>5%)") ->
   pricing_strategy row = "Aggressive Decrease").
Proof.
  intros Hc Hin.
  assert (Hcut : forall r, In r deltas ->
                   change_type r = pd.cut bins labels (change_pct r))
    by (intros r Hr; eapply produced_change_type; eassumption).
  apply in_analyze_ota in Hin. destruct Hin as (k & Hk & ->).
  apply group_nonempty in Hk.
  set (g := filter (fun r => pd.cell_is (gate (key r)) k) deltas) in *.
  assert (Hg : forall r, In r g -> In r deltas /\ gate (key r) = Some k).
  { intros r Hr. apply filter_In in Hr. destruct Hr as [Hr E].
    apply cell_is_some in E. auto. }
  cbn [ota ota_row pricing_strategy ota_stats round_stats agg_stats
         avg_change_pct].
  split; intro Hall.
  - assert (Hfin : forall r, In r g ->
               exists q, change_pct r = Fin q /\ -1 <= q /\ q <= 1).
    { intros r Hr. destruct (Hg r Hr) as [Hd Hgate].
      pose proof (Hall r Hd Hgate) as Hl. rewrite (Hcut r Hd) in Hl.
      destruct (cut_label_finite _ _ Hl) as (q & Hq); [discriminate|].
      exists q. split; [exact Hq|]. rewrite Hq in Hl.
      apply (proj1 (proj2 (proj2 (cut_fin_buckets q)))) in Hl. lra. }
    rewrite (finite_col g)
      by (intros r Hr; destruct (Hfin r Hr) as (q & Hq & _); eauto).
    destruct (mean_between (fun r => finite_part (change_pct r)) g (-1) 1 Hk)
      as (m & -> & Lm & Um).
    { apply Forall_forall. intros r Hr.
      destruct (Hfin r Hr) as (q & -> & B). exact B. }
    cbn [fl.round2].
    assert (B : (-100 <= fl.rint (m * 100) <= 100)%Z).
    { apply rint_between;
        [change (inject_Z (-100)) with (-100)
        | change (inject_Z 100) with 100]; lra. }
    apply (proj1 (proj2 (proj2 (strategy_fin_labels _)))).
    unfold Qle. simpl. lia.
  - assert (Hfin : forall r, In r g ->
               exists q, change_pct r = Fin q /\ q <= -5 /\ q <= -5).
    { intros r Hr. destruct (Hg r Hr) as [Hd Hgate].
      pose proof (Hall r Hd Hgate) as Hl. rewrite (Hcut r Hd) in Hl.
      destruct (cut_label_finite _ _ Hl) as (q & Hq); [discriminate|].
      exists q. split; [exact Hq|]. rewrite Hq in Hl.
      apply (proj1 (cut_fin_buckets q)) in Hl. lra. }
    rewrite (finite_col g)
      by (intros r Hr; destruct (Hfin r Hr) as (q & Hq & _); eauto).
    assert (Hhi : Forall (fun r => finite_part (change_pct r) <= -5) g).
    { apply Forall_forall. intros r Hr.
      destruct (Hfin r Hr) as (q & -> & B). apply B. }
    rewrite (mean_fin _ g Hk).
    pose proof (sum_upper _ g (-5) 0 Hhi) as U.
    assert (Hpos : 0 < inject_Z (Z.of_nat (List.length g))).
    { destruct g; [contradiction|]. apply of_nat_positive. }
    set (m := fold_left Qplus
                (map (fun r => finite_part (change_pct r)) g) 0
              / inject_Z (Z.of_nat (List.length g))).
    assert (Um : m <= -5)
      by (apply Qle_shift_div_r; [exact Hpos | lra]).
    cbn [fl.round2].
    assert (R : (fl.rint (m * 100) <= -500)%Z).
    { pose proof (rint_mono (m * 100) (inject_Z (-500))) as Hm.
      assert (E : fl.rint (inject_Z (-500)) = (-500)%Z) by reflexivity.
      rewrite E in Hm. apply Hm. change (inject_Z (-500)) with (-500).
      lra. }
    apply (proj2 (proj2 (proj2 (proj2 (strategy_fin_labels _))))).
    unfold Qle. simpl. lia.
Qed.

End Agreement.

Lemma uniform_records_fix_strategy_witness :
  compare_snapshots steady_dir "20250617" "20250618"
  = inr (compare_frames [mkObs bcn_mad_x 80; mkObs bcn_mad_y 90]
           [mkObs bcn_mad_x 80; mkObs bcn_mad_y 90]) /\
  pricing_strategy
    (ota_row (np := stable_numpy)
       ("AgentX",
        filter (fun r => pd.cell_is (gate (key r)) "AgentX")
          (compare_frames [mkObs bcn_mad_x 80; mkObs bcn_mad_y 90]
             [mkObs bcn_mad_x 80; mkObs bcn_mad_y 90])))
  = "Stable".
Proof.
  set (df := compare_frames [mkObs bcn_mad_x 80; mkObs bcn_mad_y 90]
               [mkObs bcn_mad_x 80; mkObs bcn_mad_y 90]).
  set (row := ota_row (np := stable_numpy)
                ("AgentX",
                 filter (fun r => pd.cell_is (gate (key r)) "AgentX") df)).
  assert (Hc : compare_snapshots steady_dir "20250617" "20250618" = inr df)
    by reflexivity.
  assert (Hin : In row (analyze_ota_changes (np := stable_numpy) df))
    by (left; reflexivity).
  assert (Hall : forall r, In r df -> gate (key r) = Some (ota row) ->
                           change_type r = Some "Stable (±1%)").
  { intros r [<-|[<-|[]]] _; reflexivity. }
  split; [exact Hc|].
  exact (proj1 (uniform_records_fix_strategy _ _ _ _ row Hc Hin) Hall).
Defined.
